(** * The data-preparation pipeline of the operator dashboard

    A shallow embedding of [dashboard.py]: the loader [load_data], the
    overview KPIs, the hourly resampling and the quick alerts, followed by
    the properties of that code.

    Conventions of the embedding.
    - A pandas [float64] is an exact rational or [NaN]; arithmetic is the
      exact one of [Q]: the model has no rounding, no overflow and no
      infinity.  What is stated below about computed values is kept to
      what does not depend on how binary floating point rounds.
    - A point in time ([datetime64[ns]]) is the number of nanoseconds since
      the epoch, a [Z]; [NaT] is the absent timestamp.
    - The frame handed to [load_data] is what [pd.read_csv] returns: the
      header and the rows of cells.  How pandas turns one text cell into a
      point in time is a parameter of the loader.
    - A Python exception is a value of [exception], without its message
      text; code that may raise returns a [result]. *)

From Stdlib Require Import List String Ascii Bool Arith ZArith QArith Qround.
From Stdlib Require Import Lia Lqa Permutation Sorted.
Import ListNotations.

Local Open Scope string_scope.
Local Open Scope Z_scope.

(** ** Values *)

Inductive float64 : Type :=
| Fin (q : Q)
| NaN.

(** One cell of a frame read from the file. *)
Inductive cell : Type :=
| Num (x : float64)
| Flag (b : bool)
| Text (s : string).

(** [None] is [NaT]. *)
Definition Timestamp : Type := option Z.

(** [DateParseError] is the error of [pd.to_datetime] on a value that
    is no date-time.  The script attaches nothing to it; what its message
    says (the value, its position) is up to the pandas version and is not
    part of the model. *)
Inductive exception : Type :=
| KeyError (key : string)
| DateParseError
| ValueError (msg : string)
| ZeroDivisionError.

Inductive result (A : Type) : Type :=
| Ok (a : A)
| Raise (e : exception).

Arguments Ok {A} a.
Arguments Raise {A} e.

Definition bind {A B : Type} (r : result A) (k : A -> result B) : result B :=
  match r with
  | Ok a => k a
  | Raise e => Raise e
  end.

Notation "x <- r ;; k" := (bind r (fun x => k))
  (at level 61, r at next level, right associativity).

(** ** Frames *)

(** The frame of [pd.read_csv]: rows are numbered by position. *)
Record DataFrame : Type := mkDataFrame {
  columns : list string;
  rows : list (list cell)
}.

(** A frame after [set_index('DateTime')]: every row carries its index
    label, and the indexed column is no longer among the columns. *)
Record TimeFrame : Type := mkTimeFrame {
  tcolumns : list string;
  trows : list (Timestamp * list cell)
}.

Definition index (tf : TimeFrame) : list Timestamp := map fst (trows tf).

(** [df.rename(columns=mapping)]: a label that is a key of the mapping is
    replaced, any other label is kept; keys that name no column are
    ignored. *)
Fixpoint lookup (mapping : list (string * string)) (name : string) : option string :=
  match mapping with
  | [] => None
  | (old, new) :: rest => if String.eqb old name then Some new else lookup rest name
  end.

Definition rename_label (mapping : list (string * string)) (name : string) : string :=
  match lookup mapping name with
  | Some new => new
  | None => name
  end.

Definition rename (mapping : list (string * string)) (df : DataFrame) : DataFrame :=
  mkDataFrame (map (rename_label mapping) (columns df)) (rows df).

Definition trename (mapping : list (string * string)) (tf : TimeFrame) : TimeFrame :=
  mkTimeFrame (map (rename_label mapping) (tcolumns tf)) (trows tf).

(** The positions at which a label occurs among the columns. *)
Fixpoint positions_from (i : nat) (name : string) (cols : list string) : list nat :=
  match cols with
  | [] => []
  | c :: rest =>
      if String.eqb c name then i :: positions_from (S i) name rest
      else positions_from (S i) name rest
  end.

Definition positions (name : string) (cols : list string) : list nat :=
  positions_from 0 name cols.

(** The cells of column [j]; a row that is too short reads as [NaN]. *)
Definition column (j : nat) (df : DataFrame) : list cell :=
  map (fun r => nth j r (Num NaN)) (rows df).

Fixpoint remove_nth {A : Type} (j : nat) (l : list A) : list A :=
  match j, l with
  | _, [] => []
  | O, _ :: rest => rest
  | S j', x :: rest => x :: remove_nth j' rest
  end.

(** ** Sorting by time *)

(** Ascending order of the index, [NaT] last ([na_position='last']). *)
Definition stamp_leb (a b : Timestamp) : bool :=
  match a, b with
  | Some x, Some y => x <=? y
  | _, None => true
  | None, Some _ => false
  end.

(** Insertion sort for a boolean order; elements that compare equal keep
    their relative order. *)
Section Sort.
Context {A : Type}.
Variable leb : A -> A -> bool.

Fixpoint insert (x : A) (l : list A) : list A :=
  match l with
  | [] => [x]
  | y :: rest => if leb x y then x :: y :: rest else y :: insert x rest
  end.

Fixpoint sort (l : list A) : list A :=
  match l with
  | [] => []
  | x :: rest => insert x (sort rest)
  end.
End Sort.

Definition row_leb {A : Type} (x y : Timestamp * A) : bool :=
  stamp_leb (fst x) (fst y).

(** [sort_values('DateTime')] on rows paired with their key.  pandas sorts
    with a routine that is not stable and may exchange rows with equal
    keys; here such rows keep the order of the file, and nothing stated
    about a loaded table below depends on the order of rows with equal
    keys. *)
Definition sort_values {A : Type} (l : list (Timestamp * A)) : list (Timestamp * A) :=
  sort row_leb l.

(** ** The loader *)

Definition column_names : list (string * string) :=
  [ ("Timestamp", "DateTime");
    ("Vibration Level (mm/s)", "Vibration_Level");
    ("Machine Speed (RPM)", "Machine_Speed");
    ("Production Quality Score", "Production_Quality_Score");
    ("Optimal Conditions", "Optimal_Conditions");
    ("Energy Consumption (kWh)", "Energy_Consumption");
    ("Temperature (°C)", "Temperature") ].

Section Loader.
(** The conversion of one cell that is not missing to a point in time, as
    [pd.to_datetime] does it; [None] when the cell does not parse. *)
Variable parse_datetime : cell -> option Z.

(** [pd.to_datetime(column)] with the default [errors='raise']: a missing
    cell becomes [NaT], and a cell that does not parse raises.  The
    missing cell [Num NaN] stands for every cell that pandas reads as a
    missing timestamp. *)
Fixpoint to_datetime (col : list cell) : result (list Timestamp) :=
  match col with
  | [] => Ok []
  | Num NaN :: rest =>
      stamps <- to_datetime rest ;;
      Ok (None :: stamps)
  | c :: rest =>
      match parse_datetime c with
      | Some t =>
          stamps <- to_datetime rest ;;
          Ok (Some t :: stamps)
      | None => Raise DateParseError
      end
  end.

(** [df['DateTime']] followed by [pd.to_datetime]: the label must name a
    column; when it names several, the selection is a frame and
    [to_datetime] refuses it. *)
Definition datetime_column (df : DataFrame) : result (nat * list Timestamp) :=
  match positions "DateTime" (columns df) with
  | [] => Raise (KeyError "DateTime")
  | [j] =>
      stamps <- to_datetime (column j df) ;;
      Ok (j, stamps)
  | _ :: _ :: _ => Raise (ValueError "cannot assemble with duplicate keys")
  end.

(** [set_index('DateTime')] on the sorted rows: column [j] leaves the
    columns and its values label the rows. *)
Definition set_index (j : nat) (cols : list string)
    (sorted : list (Timestamp * list cell)) : TimeFrame :=
  mkTimeFrame (remove_nth j cols)
              (map (fun r => (fst r, remove_nth j (snd r))) sorted).

Definition load_data (csv : DataFrame) : result TimeFrame :=
  let df := rename [("Timestamp", "DateTime")] csv in
  js <- datetime_column df ;;
  let '(j, stamps) := js in
  let sorted := sort_values (combine stamps (rows df)) in
  Ok (trename column_names (set_index j (columns df) sorted)).
End Loader.

(** ** The loaded table, typed

    The KPIs, the resampling and the alerts read a table whose timestamps
    are all present, whose measurements are numbers and whose
    optimal-conditions column is boolean. *)

Record SensorReading : Type := mkReading {
  DateTime : Z;
  Vibration_Level : Q;
  Machine_Speed : Q;
  Production_Quality_Score : Q;
  Optimal_Conditions : bool;
  Energy_Consumption : Q;
  Temperature : Q
}.

Definition SensorTable : Type := list SensorReading.

(** ** Series reductions *)

Definition Qsum (xs : list Q) : Q := fold_right Qplus 0%Q xs.

Definition len {A : Type} (l : list A) : Z := Z.of_nat (List.length l).

(** [Series.mean()]: [NaN] for a series without values. *)
Definition mean (xs : list Q) : float64 :=
  match xs with
  | [] => NaN
  | _ :: _ => Fin (Qsum xs / inject_Z (len xs))
  end.

(** [Series.sum()] of a boolean series, and of a comparison mask: the
    number of [True]. *)
Definition count_true (bs : list bool) : Z := len (filter (fun b => b) bs).

(** A boolean series read as numbers, for its mean. *)
Definition of_bool (b : bool) : Q := if b then 1%Q else 0%Q.

Definition Qlt_bool (x y : Q) : bool := negb (Qle_bool y x).

(** Comparison of a value with a threshold; every comparison with [NaN] is
    false. *)
Definition Series_gt (x : Q) (t : float64) : bool :=
  match t with
  | Fin y => Qlt_bool y x
  | NaN => false
  end.

Definition Series_lt (x : Q) (t : float64) : bool :=
  match t with
  | Fin y => Qlt_bool x y
  | NaN => false
  end.

(** Linear interpolation as NumPy computes it: from the left end, and from
    the right end when the weight is at least one half. *)
Definition lerp (a b t : Q) : Q :=
  if Qle_bool (1 # 2) t then (b - (b - a) * (1 - t))%Q
  else (a + (b - a) * t)%Q.

(** [Series.quantile(q)] with the default linear interpolation: the value
    at the fractional rank [(n - 1) * q] of the sorted values. *)
Definition quantile (xs : list Q) (q : Q) : float64 :=
  match xs with
  | [] => NaN
  | _ :: _ =>
      let s := sort Qle_bool xs in
      let h := (inject_Z (len xs - 1) * q)%Q in
      let lo := Qfloor h in
      let hi := Z.min (lo + 1) (len xs - 1) in
      Fin (lerp (nth (Z.to_nat lo) s 0%Q) (nth (Z.to_nat hi) s 0%Q)
                (h - inject_Z lo)%Q)
  end.

(** ** Overview KPIs *)

Definition avg_quality (df : SensorTable) : float64 :=
  mean (map Production_Quality_Score df).

Definition avg_speed (df : SensorTable) : float64 :=
  mean (map Machine_Speed df).

Definition avg_energy (df : SensorTable) : float64 :=
  mean (map Energy_Consumption df).

(** The quotient of the sum by the row count.  A table without rows is the
    frame of a file without rows, whose columns have no numeric type: the
    sum is Python's integer 0 and the division raises. *)
Definition true_divide (a b : Z) : result float64 :=
  if b =? 0 then Raise ZeroDivisionError else Ok (Fin (inject_Z a / inject_Z b)).

Definition scale (x : float64) (k : Q) : float64 :=
  match x with
  | Fin q => Fin (q * k)
  | NaN => NaN
  end.

(** [df['Optimal_Conditions'].sum() / len(df) * 100]. *)
Definition optimal_pct (df : SensorTable) : result float64 :=
  x <- true_divide (count_true (map Optimal_Conditions df)) (len df) ;;
  Ok (scale x 100).

Record SummaryMetrics : Type := mkSummary {
  m_avg_quality : float64;
  m_avg_speed : float64;
  m_avg_energy : float64;
  m_optimal_pct : float64
}.

(** The four values of lines 51 to 54, when the four lines run through. *)
Definition summary_metrics (df : SensorTable) : result SummaryMetrics :=
  p <- optimal_pct df ;;
  Ok (mkSummary (avg_quality df) (avg_speed df) (avg_energy df) p).

(** What [st.metric] is handed, before it is formatted. *)
Inductive shown : Type :=
| Count (n : Z)
| Label (s : string)
| Number (x : float64).

(** A run of some lines of the script: the metrics shown, in order, and
    the exception that stopped the run, if one did. *)
Definition run : Type := (list (string * shown) * option exception)%type.

(** Lines 51 to 54.  Each line computes its value and then shows it, so
    that the three averages are on the page when the fourth line runs. *)
Definition kpi_block (df : SensorTable) : run :=
  let averages :=
    [ ("Avg Production Quality", Number (avg_quality df));
      ("Avg Machine Speed (RPM)", Number (avg_speed df));
      ("Avg Energy (kWh)", Number (avg_energy df)) ] in
  match optimal_pct df with
  | Ok p => (averages ++ [ ("Optimal Conditions %", Number p) ], None)%list
  | Raise e => (averages, Some e)
  end.

(** ** Hourly trends: [df.resample('1h').mean()] *)

(** One hour, in nanoseconds. *)
Definition hour : Z := 3600 * 1000000000.

Record HourlyAggregate : Type := mkHourly {
  bucket_start : Z;
  h_Vibration_Level : float64;
  h_Machine_Speed : float64;
  h_Production_Quality_Score : float64;
  h_Optimal_Conditions : float64;
  h_Energy_Consumption : float64;
  h_Temperature : float64
}.

(** The rows of the half-open window [[start, start + 1h)]. *)
Definition in_bucket (start : Z) (r : SensorReading) : bool :=
  (start <=? DateTime r) && (DateTime r <? start + hour).

Definition bucket (df : SensorTable) (start : Z) : HourlyAggregate :=
  let rs := filter (in_bucket start) df in
  mkHourly start
    (mean (map Vibration_Level rs))
    (mean (map Machine_Speed rs))
    (mean (map Production_Quality_Score rs))
    (mean (map (fun r => of_bool (Optimal_Conditions r)) rs))
    (mean (map Energy_Consumption rs))
    (mean (map Temperature rs)).

Definition min_ts (r : SensorReading) (rest : SensorTable) : Z :=
  fold_right Z.min (DateTime r) (map DateTime rest).

Definition max_ts (r : SensorReading) (rest : SensorTable) : Z :=
  fold_right Z.max (DateTime r) (map DateTime rest).

(** The bins start at the hour of the earliest timestamp and end with the
    hour of the latest one; each is labelled by its left edge. *)
Definition resample_1h_mean (df : SensorTable) : list HourlyAggregate :=
  match df with
  | [] => []
  | r :: rest =>
      let first := min_ts r rest / hour in
      let last := max_ts r rest / hour in
      map (fun k => bucket df ((first + Z.of_nat k) * hour))
          (seq 0 (Z.to_nat (last - first + 1)))
  end.

(** ** Quick alerts *)

Definition high_count (xs : list Q) : Z :=
  count_true (map (fun x => Series_gt x (quantile xs (95 # 100))) xs).

Definition low_count (xs : list Q) : Z :=
  count_true (map (fun x => Series_lt x (quantile xs (5 # 100))) xs).

Definition alert_conditions (df : SensorTable) : list (string * Z) :=
  [ ("High Vibration", high_count (map Vibration_Level df));
    ("Low Quality", low_count (map Production_Quality_Score df));
    ("High Energy", high_count (map Energy_Consumption df)) ].

Inductive message : Type :=
| st_error (alert : string) (count : Z)
| st_success (alert : string).

(** The loop over the alerts: an error line when the count is positive, a
    success line otherwise. *)
Definition report (alerts : list (string * Z)) : list message :=
  map (fun '(alert, count) =>
         if count >? 0 then st_error alert count else st_success alert)
      alerts.

(** ** From a loaded frame to the typed table *)

Definition cell_at (cols : list string) (name : string) (cells : list cell) : option cell :=
  match positions name cols with
  | [j] => nth_error cells j
  | _ => None
  end.

Definition number_at (cols : list string) (name : string) (cells : list cell) : option Q :=
  match cell_at cols name cells with
  | Some (Num (Fin q)) => Some q
  | _ => None
  end.

Definition flag_at (cols : list string) (name : string) (cells : list cell) : option bool :=
  match cell_at cols name cells with
  | Some (Flag b) => Some b
  | _ => None
  end.

(** A row of the loaded frame as a reading: defined when its timestamp is
    present and its six fields are there with the declared types. *)
Definition reading (cols : list string) (row : Timestamp * list cell) : option SensorReading :=
  match fst row,
        number_at cols "Vibration_Level" (snd row),
        number_at cols "Machine_Speed" (snd row),
        number_at cols "Production_Quality_Score" (snd row),
        flag_at cols "Optimal_Conditions" (snd row),
        number_at cols "Energy_Consumption" (snd row),
        number_at cols "Temperature" (snd row) with
  | Some t, Some v, Some s, Some p, Some o, Some e, Some c =>
      Some (mkReading t v s p o e c)
  | _, _, _, _, _, _, _ => None
  end.

Fixpoint all_some {A : Type} (l : list (option A)) : option (list A) :=
  match l with
  | [] => Some []
  | None :: _ => None
  | Some a :: rest =>
      match all_some rest with
      | Some rest' => Some (a :: rest')
      | None => None
      end
  end.

Definition readings (tf : TimeFrame) : option SensorTable :=
  all_some (map (reading (tcolumns tf)) (trows tf)).

(** ** A date-time reader for the examples

    Text of the form [YYYY-MM-DD HH:MM:SS], read as nanoseconds since the
    epoch in the proleptic Gregorian calendar. *)

Definition digit (c : ascii) : option Z :=
  let n := Z.of_nat (nat_of_ascii c) in
  if (48 <=? n) && (n <=? 57) then Some (n - 48) else None.

Fixpoint number (acc : Z) (cs : list ascii) : option Z :=
  match cs with
  | [] => Some acc
  | c :: rest =>
      match digit c with
      | Some d => number (acc * 10 + d) rest
      | None => None
      end
  end.

Definition field (start width : nat) (cs : list ascii) : option Z :=
  number 0 (firstn width (skipn start cs)).

Definition is_leap (y : Z) : bool :=
  ((y mod 4 =? 0) && negb (y mod 100 =? 0)) || (y mod 400 =? 0).

Definition days_in_month (y m : Z) : Z :=
  if m =? 2 then (if is_leap y then 29 else 28)
  else if (m =? 4) || (m =? 6) || (m =? 9) || (m =? 11) then 30
  else 31.

Definition days_from_civil (y m d : Z) : Z :=
  let y' := if m <=? 2 then y - 1 else y in
  let era := y' / 400 in
  let yoe := y' - era * 400 in
  let mp := (m + 9) mod 12 in
  let doy := (153 * mp + 2) / 5 + d - 1 in
  let doe := yoe * 365 + yoe / 4 - yoe / 100 + doy in
  era * 146097 + doe - 719468.

Definition separator (i : nat) (c : ascii) (cs : list ascii) : bool :=
  match nth_error cs i with
  | Some c' => Ascii.eqb c c'
  | None => false
  end.

Definition parse_iso (s : string) : option Z :=
  let cs := list_ascii_of_string s in
  match field 0 4 cs, field 5 2 cs, field 8 2 cs,
        field 11 2 cs, field 14 2 cs, field 17 2 cs with
  | Some y, Some m, Some d, Some hh, Some mm, Some ss =>
      if (List.length cs =? 19)%nat
         && separator 4 "-" cs && separator 7 "-" cs && separator 10 " " cs
         && separator 13 ":" cs && separator 16 ":" cs
         && (1 <=? m) && (m <=? 12) && (1 <=? d) && (d <=? days_in_month y m)
         && (hh <=? 23) && (mm <=? 59) && (ss <=? 59)
      then Some ((((days_from_civil y m d * 24 + hh) * 60 + mm) * 60 + ss) * 1000000000)
      else None
  | _, _, _, _, _, _ => None
  end.

Definition iso_datetime (c : cell) : option Z :=
  match c with
  | Text s => parse_iso s
  | _ => None
  end.

(** A small file with the seven source columns, out of order in time. *)
Definition source_header : list string :=
  [ "Timestamp"; "Vibration Level (mm/s)"; "Machine Speed (RPM)";
    "Production Quality Score"; "Optimal Conditions";
    "Energy Consumption (kWh)"; "Temperature (°C)" ].

Definition source_row (ts : string) (v s p : Q) (o : bool) (e c : Q) : list cell :=
  [ Text ts; Num (Fin v); Num (Fin s); Num (Fin p); Flag o; Num (Fin e); Num (Fin c) ].

Definition sample_csv : DataFrame :=
  mkDataFrame source_header
    [ source_row "2024-01-01 02:10:00" (3 # 10) 1500 (90 # 1) true (12 # 10) 71;
      source_row "2024-01-01 00:15:00" (1 # 10) 1450 (80 # 1) false 1 70;
      source_row "2024-01-01 00:45:00" (2 # 10) 1550 (85 # 1) true (11 # 10) 72 ].

Definition sample_table : SensorTable :=
  [ mkReading 1704068100000000000 (1 # 10) 1450 80 false 1 70;
    mkReading 1704069900000000000 (2 # 10) 1550 85 true (11 # 10) 72;
    mkReading 1704075000000000000 (3 # 10) 1500 90 true (12 # 10) 71 ].

(** A table with one reading, and one whose readings sit on two successive
    hour boundaries. *)
Definition single_table : SensorTable :=
  [ mkReading 1704068100000000000 (1 # 10) 1450 80 false 1 70 ].

Definition boundary_table : SensorTable :=
  [ mkReading 0 (1 # 10) 1450 80 false 1 70;
    mkReading hour (2 # 10) 1550 85 true (11 # 10) 72 ].

(** A hundred readings, a minute apart: vibration cycles through 0..10,
    except for reading 50, which is at 1000. *)
Definition outlier_reading (i : nat) : SensorReading :=
  mkReading (Z.of_nat i * 60000000000)
            (if (i =? 50)%nat then 1000 else inject_Z (Z.of_nat (i mod 11)))
            1500 90 true 1 70.

Definition outlier_table : SensorTable :=
  (map outlier_reading (seq 0 50) ++ outlier_reading 50 :: map outlier_reading (seq 51 49))%list.

(** Four readings with the same vibration, quality and energy. *)
Definition steady_table : SensorTable :=
  map (fun i => mkReading (Z.of_nat i * 60000000000) (5 # 2) (inject_Z (Z.of_nat i)) 90
                          true (3 # 2) 70)
      (seq 0 4).

(** ** The specification's notions, in its own words *)

(** [v] is the [p]-th percentile of [xs] by linear interpolation between
    order statistics: with [s] the values in ascending order and
    [h = (n - 1) p] the fractional rank, [v] lies between [s_k] and
    [s_(k+1)], [k] the integer part of [h], in proportion to the fractional
    part of [h]. *)
Definition is_percentile (xs : list Q) (p v : Q) : Prop :=
  exists s : list Q,
    Permutation s xs /\ StronglySorted Qle s /\
    let h := (inject_Z (len xs - 1) * p)%Q in
    let k := Z.to_nat (Qfloor h) in
    (v == nth k s 0 + (h - inject_Z (Qfloor h)) * (nth (S k) s (nth k s 0) - nth k s 0))%Q.


(** The number of whole or partial hours between two points in time. *)
Definition ceil_hours (d : Z) : Z := - ((- d) / hour).

(** A row lies in the window that starts at [start]. *)
Definition in_window (start : Z) (r : SensorReading) : Prop :=
  start <= DateTime r < start + hour.

Definition no_data (b : HourlyAggregate) : Prop :=
  h_Vibration_Level b = NaN /\ h_Machine_Speed b = NaN /\
  h_Production_Quality_Score b = NaN /\ h_Optimal_Conditions b = NaN /\
  h_Energy_Consumption b = NaN /\ h_Temperature b = NaN.

(** The cells of the timestamp column of a file, when its header has
    exactly one column that [load_data] reads as the timestamp. *)
Definition timestamp_column (csv : DataFrame) : option (list cell) :=
  match positions "DateTime" (columns (rename [("Timestamp", "DateTime")] csv)) with
  | [j] => Some (column j csv)
  | _ => None
  end.

(** A cell that holds a value and does not parse as a date-time. *)
Definition unparsable (parse : cell -> option Z) (c : cell) : Prop :=
  c <> Num NaN /\ parse c = None.

(** The sample file without its temperature column, and the sample file
    with a second row whose timestamp is not a date. *)
Definition no_temperature_csv : DataFrame :=
  mkDataFrame (removelast source_header) (map (@removelast cell) (rows sample_csv)).




(** The number of values of [xs] that are at most [v]. *)
Definition rank (v : Q) (xs : list Q) : nat :=
  List.length (filter (fun x => Qle_bool x v) xs).

(** The time between the earliest and the latest reading of a table. *)
Definition time_span (df : SensorTable) : Z :=
  match df with
  | [] => 0
  | r :: rest => max_ts r rest - min_ts r rest
  end.

(** ** The sidebar *)

(** The smaller and the larger of two index labels, a missing one being
    skipped. *)
Definition stamp_min (a b : Timestamp) : Timestamp :=
  match a, b with
  | Some x, Some y => Some (Z.min x y)
  | Some x, None => Some x
  | None, _ => b
  end.

Definition stamp_max (a b : Timestamp) : Timestamp :=
  match a, b with
  | Some x, Some y => Some (Z.max x y)
  | Some x, None => Some x
  | None, _ => b
  end.

(** [df.index.min()] and [df.index.max()]: [NaT] when the index has no
    timestamp. *)
Definition index_min (ix : list Timestamp) : Timestamp := fold_right stamp_min None ix.

Definition index_max (ix : list Timestamp) : Timestamp := fold_right stamp_max None ix.

(** [len(df)], the "Total Records" metric. *)
Definition total_records (tf : TimeFrame) : Z := len (trows tf).

Section Sidebar.
(** [Timestamp.strftime('%Y-%m-%d')]. *)
Variable strftime : Z -> string.

(** The "Date Range" metric.  [NaT] has no [strftime]: calling it raises. *)
Definition date_range (tf : TimeFrame) : result string :=
  match index_min (index tf) with
  | None => Raise (ValueError "NaTType does not support strftime")
  | Some lo =>
      match index_max (index tf) with
      | None => Raise (ValueError "NaTType does not support strftime")
      | Some hi => Ok (strftime lo ++ " to " ++ strftime hi)
      end
  end.

(** Lines 36 to 39. *)
Definition sidebar (tf : TimeFrame) : run :=
  let records := [ ("Total Records", Count (total_records tf)) ] in
  match date_range tf with
  | Ok range => (records ++ [ ("Date Range", Label range) ], None)%list
  | Raise e => (records, Some e)
  end.

(** Lines 36 to 54 on a loaded table [tf] whose typed readings are [df]:
    the sidebar, then the KPIs when the sidebar has not raised. *)
Definition overview (tf : TimeFrame) (df : SensorTable) : run :=
  match sidebar tf with
  | (side, None) =>
      let '(kpis, stopped) := kpi_block df in ((side ++ kpis)%list, stopped)
  | (side, Some e) => (side, Some e)
  end.
End Sidebar.

(** ** The recent rows *)

(** [df.tail(n)]: the last [n] rows, all of them when there are fewer. *)
Definition tail {A : Type} (n : nat) (l : list A) : list A :=
  skipn (List.length l - n) l.

(** The rows behind the three sensor charts and the raw-data preview. *)
Definition recent_rows (tf : TimeFrame) : list (Timestamp * list cell) :=
  tail 1000 (trows tf).

(** ** A date writer for the examples: [%Y-%m-%d] *)

Definition civil_from_days (days : Z) : Z * Z * Z :=
  let z := days + 719468 in
  let era := z / 146097 in
  let doe := z - era * 146097 in
  let yoe := (doe - doe / 1460 + doe / 36524 - doe / 146096) / 365 in
  let doy := doe - (365 * yoe + yoe / 4 - yoe / 100) in
  let mp := (5 * doy + 2) / 153 in
  let d := doy - (153 * mp + 2) / 5 + 1 in
  let m := if mp <? 10 then mp + 3 else mp - 9 in
  let y := yoe + era * 400 in
  (if m <=? 2 then y + 1 else y, m, d).

Definition digit_char (d : Z) : ascii := ascii_of_nat (Z.to_nat (48 + d mod 10)).

Fixpoint digits (width : nat) (n : Z) (acc : string) : string :=
  match width with
  | O => acc
  | S w => digits w (n / 10) (String (digit_char n) acc)
  end.

Definition strftime_ymd (t : Z) : string :=
  let '(y, m, d) := civil_from_days (t / (24 * hour)) in
  digits 4 y ("-" ++ digits 2 m ("-" ++ digits 2 d "")).

(** ** More sample files *)

(** A file that has a [DateTime] column beside its [Timestamp] column. *)
Definition two_timestamps_csv : DataFrame :=
  mkDataFrame ("DateTime" :: source_header)
              (map (cons (Text "2024-01-01 00:00:00")) (rows sample_csv)).

(** A file with its header and no row. *)
Definition header_only_csv : DataFrame := mkDataFrame source_header [].

(** The sample file with a last row whose timestamp cell is empty. *)
Definition missing_timestamp_csv : DataFrame :=
  mkDataFrame source_header
    (rows sample_csv
     ++ [ [ Num NaN; Num (Fin (4 # 10)); Num (Fin 1400); Num (Fin 70); Flag false;
            Num (Fin 1); Num (Fin 69) ] ])%list.

(** ** Comparing results *)

(** Two results are the same number, or both [NaN]. *)
Definition same_float (a b : float64) : Prop :=
  match a, b with
  | Fin x, Fin y => (x == y)%Q
  | NaN, NaN => True
  | _, _ => False
  end.

Example parse_iso_epoch : parse_iso "1970-01-01 00:00:00" = Some 0.
Proof. reflexivity. Qed.

Example parse_iso_2024 : parse_iso "2024-01-01 02:10:00" = Some (1704075000 * 1000000000).
Proof. vm_compute. reflexivity. Qed.

Example parse_iso_rejects : parse_iso "not-a-date" = None.
Proof. reflexivity. Qed.

Example load_sample_index :
  match load_data iso_datetime sample_csv with
  | Ok tf => index tf = [ Some 1704068100000000000; Some 1704069900000000000;
                          Some 1704075000000000000 ]
             /\ tcolumns tf = [ "Vibration_Level"; "Machine_Speed";
                                "Production_Quality_Score"; "Optimal_Conditions";
                                "Energy_Consumption"; "Temperature" ]
  | Raise _ => False
  end.
Proof. vm_compute. split; reflexivity. Qed.

Example sample_readings :
  match load_data iso_datetime sample_csv with
  | Ok tf => readings tf = Some sample_table
  | Raise _ => False
  end.
Proof. vm_compute. reflexivity. Qed.

(** * Properties *)

(** ** Insertion sort *)

Section SortFacts.
Context {A : Type}.
Variable leb : A -> A -> bool.

Local Abbreviation le := (fun x y => leb x y = true).

Lemma insert_perm (x : A) (l : list A) : Permutation (insert leb x l) (x :: l).
Proof.
  induction l as [|y l IH]; simpl.
  - apply Permutation_refl.
  - destruct (leb x y).
    + apply Permutation_refl.
    + eapply perm_trans; [apply perm_skip, IH | apply perm_swap].
Qed.

Lemma sort_perm (l : list A) : Permutation (sort leb l) l.
Proof.
  induction l as [|x l IH]; simpl.
  - constructor.
  - eapply perm_trans; [apply insert_perm | apply perm_skip, IH].
Qed.

Lemma sort_length (l : list A) : List.length (sort leb l) = List.length l.
Proof. apply Permutation_length, sort_perm. Qed.

Hypothesis leb_total : forall x y, leb x y = true \/ leb y x = true.
Hypothesis leb_trans : forall x y z, leb x y = true -> leb y z = true -> leb x z = true.

Lemma insert_sorted (x : A) (l : list A) :
  StronglySorted le l -> StronglySorted le (insert leb x l).
Proof.
  induction 1 as [|y l Hs IH Hy]; simpl.
  - constructor; constructor.
  - destruct (leb x y) eqn:E.
    + constructor; [constructor; assumption|].
      constructor; [exact E|].
      eapply Forall_impl; [|exact Hy].
      intros z Hz. simpl in *. eapply leb_trans; eassumption.
    + constructor; [exact IH|].
      eapply Permutation_Forall; [apply Permutation_sym, insert_perm|].
      constructor; [|exact Hy].
      destruct (leb_total x y) as [H|H]; [congruence | exact H].
Qed.

Lemma sort_sorted (l : list A) : StronglySorted le (sort leb l).
Proof.
  induction l as [|x l IH]; simpl; [constructor | now apply insert_sorted].
Qed.
End SortFacts.

Lemma stamp_leb_total (a b : Timestamp) : stamp_leb a b = true \/ stamp_leb b a = true.
Proof.
  destruct a as [x|], b as [y|]; simpl; auto.
  destruct (Z.leb_spec x y); [left; reflexivity | right; apply Z.leb_le; lia].
Qed.

Lemma stamp_leb_trans (a b c : Timestamp) :
  stamp_leb a b = true -> stamp_leb b c = true -> stamp_leb a c = true.
Proof.
  destruct a as [x|], b as [y|], c as [z|]; simpl; try congruence.
  rewrite !Z.leb_le. lia.
Qed.

Lemma sort_values_sorted {A : Type} (l : list (Timestamp * A)) :
  StronglySorted (fun x y => row_leb x y = true) (sort_values l).
Proof.
  apply sort_sorted; unfold row_leb.
  - intros x y. apply stamp_leb_total.
  - intros x y z. apply stamp_leb_trans.
Qed.

(** Changing the cells of the rows, not their keys, keeps the order. *)
Lemma sorted_map_snd {A B : Type} (g : A -> B) (l : list (Timestamp * A)) :
  StronglySorted (fun x y => row_leb x y = true) l ->
  StronglySorted (fun x y => row_leb x y = true) (map (fun r => (fst r, g (snd r))) l).
Proof.
  induction 1 as [|x l Hs IH Hx]; simpl; constructor; [exact IH|].
  apply Forall_map. eapply Forall_impl; [|exact Hx].
  intros y Hy. exact Hy.
Qed.


(** ** The loader *)

Lemma load_data_Ok (parse : cell -> option Z) (csv : DataFrame) (tf : TimeFrame) :
  load_data parse csv = Ok tf ->
  exists j stamps,
    datetime_column parse (rename [("Timestamp", "DateTime")] csv) = Ok (j, stamps) /\
    trows tf = map (fun r => (fst r, remove_nth j (snd r)))
                   (sort_values (combine stamps (rows csv))).
Proof.
  unfold load_data.
  destruct (datetime_column parse _) as [[j stamps]|e]; simpl; [|discriminate].
  intros H. injection H as <-. exists j, stamps. split; reflexivity.
Qed.







Lemma combine_map_snd {A B C : Type} (g : B -> C) (l : list A) (l' : list B) :
  map (fun r => (fst r, g (snd r))) (combine l l') = combine l (map g l').
Proof.
  revert l'. induction l as [|a l IH]; intros [|b l']; simpl; try reflexivity.
  now rewrite IH.
Qed.

(** What [to_datetime] returns when it returns: one label per cell, [NaT]
    for a missing cell and the parsed time for any other. *)
Lemma to_datetime_Ok (parse : cell -> option Z) (col : list cell) :
  forall stamps,
    to_datetime parse col = Ok stamps ->
    Forall2 (fun c s => match s with
                        | None => c = Num NaN
                        | Some t => c <> Num NaN /\ parse c = Some t
                        end) col stamps.
Proof.
  induction col as [|d col IH]; intros stamps H.
  - injection H as <-. constructor.
  - simpl in H.
    destruct (to_datetime parse col) as [rest|e] eqn:E.
    + specialize (IH rest ltac:(first [exact E | reflexivity])).
      destruct d as [[q|]|b|s]; simpl in H;
        try (destruct (parse _) as [t|] eqn:Ep; simpl in H; [|discriminate]);
        injection H as <-; constructor; try exact IH;
        try (split; [discriminate | exact Ep]); reflexivity.
    + destruct d as [[q|]|b|s]; simpl in H;
        try (destruct (parse _) as [t|] eqn:Ep; simpl in H); discriminate.
Qed.

(** The rows of a loaded table are the rows of the file, each with its own
    label. *)
Lemma load_data_rows (parse : cell -> option Z) (csv : DataFrame) (tf : TimeFrame) :
  load_data parse csv = Ok tf ->
  exists j stamps,
    positions "DateTime" (columns (rename [("Timestamp", "DateTime")] csv)) = [j]
    /\ Forall2 (fun c s => match s with
                           | None => c = Num NaN
                           | Some t => c <> Num NaN /\ parse c = Some t
                           end) (column j csv) stamps
    /\ Permutation (trows tf) (combine stamps (map (remove_nth j) (rows csv)))
    /\ List.length (trows tf) = List.length (rows csv).
Proof.
  intros H. unfold load_data, datetime_column in H.
  destruct (positions "DateTime" _) as [|j [|j' js]] eqn:Ej; try discriminate.
  change (column j (rename [("Timestamp", "DateTime")] csv)) with (column j csv) in H.
  destruct (to_datetime parse (column j csv)) as [stamps|e] eqn:E; [|discriminate].
  simpl in H. injection H as <-.
  pose proof (to_datetime_Ok parse _ _ E) as HF.
  exists j, stamps. split; [reflexivity|]. split; [exact HF|].
  assert (Hp : Permutation
                 (map (fun r => (fst r, remove_nth j (snd r)))
                      (sort_values (combine stamps (rows csv))))
                 (combine stamps (map (remove_nth j) (rows csv)))).
  { rewrite <- combine_map_snd. apply Permutation_map. unfold sort_values. apply sort_perm. }
  split; [exact Hp|]. simpl.
  rewrite (Permutation_length Hp), length_combine, length_map.
  apply Forall2_length in HF. unfold column in HF. rewrite length_map in HF.
  unfold Timestamp in *. lia.
Qed.









Lemma to_datetime_parses (parse : cell -> option Z) (col : list cell) :
  Forall (fun c => ~ unparsable parse c) col ->
  exists stamps, to_datetime parse col = Ok stamps
                 /\ List.length stamps = List.length col.
Proof.
  induction 1 as [|d col Hd _ (stamps & Hs & Hlen)].
  - exists []. split; reflexivity.
  - destruct d as [[q|]|b|s]; simpl; rewrite Hs; simpl;
      try (destruct (parse _) eqn:E;
           [eexists; split; [reflexivity | simpl; now rewrite Hlen]
           | elim Hd; split; [discriminate | exact E]]).
    eexists; split; [reflexivity | simpl; now rewrite Hlen].
Qed.




(** ** Counting and comparing *)

Lemma Qlt_bool_iff (x y : Q) : Qlt_bool x y = true <-> (x < y)%Q.
Proof.
  unfold Qlt_bool. rewrite negb_true_iff, <- not_true_iff_false, Qle_bool_iff.
  split; [apply Qnot_le_lt | apply Qlt_not_le].
Qed.

Lemma len_nonneg {A : Type} (l : list A) : 0 <= len l.
Proof. unfold len. lia. Qed.

Lemma len_cons {A : Type} (x : A) (l : list A) : len (x :: l) = len l + 1.
Proof. unfold len. simpl List.length. lia. Qed.

Lemma count_true_cons (b : bool) (bs : list bool) :
  count_true (b :: bs) = (if b then 1 else 0) + count_true bs.
Proof.
  unfold count_true. simpl. destruct b; [rewrite len_cons|]; lia.
Qed.

Lemma count_true_bounds (bs : list bool) : 0 <= count_true bs <= len bs.
Proof.
  induction bs as [|b bs IH].
  - unfold count_true, len. simpl. lia.
  - rewrite count_true_cons, len_cons. destruct b; lia.
Qed.



Lemma count_true_none (bs : list bool) :
  count_true bs = 0 <-> forall b, In b bs -> b = false.
Proof.
  induction bs as [|b bs IH].
  - split; [intros _ b [] | reflexivity].
  - rewrite count_true_cons.
    pose proof (count_true_bounds bs) as Hb. split.
    + intros H b' [<-|Hin].
      * destruct b; [lia | reflexivity].
      * apply IH; [|exact Hin]. destruct b; lia.
    + intros H. rewrite (H b (or_introl eq_refl)).
      assert (count_true bs = 0) by (apply IH; intros; apply H; now right).
      lia.
Qed.

(** ** Overview KPIs *)

Lemma mean_nan_iff (xs : list Q) : mean xs = NaN <-> xs = [].
Proof.
  destruct xs; simpl; split; intros H; try reflexivity; discriminate.
Qed.

(** C1, as the code has it.  The code has no error of its own for a table
    without rows.  On the table of a file without rows the script stops at
    the date range of the sidebar, with the [ValueError] of [NaT], when
    the record count is all it has shown: no KPI is computed.  Lines 51 to
    54, run on their own on that table, show the three averages as [NaN]
    and then raise [ZeroDivisionError] on the optimal-conditions
    percentage, which so has no value, [NaN] or other. *)
Theorem empty_table_overview (parse : cell -> option Z) (strftime : Z -> string)
    (csv : DataFrame) (col : list cell) :
  timestamp_column csv = Some col ->
  rows csv = [] ->
  exists tf,
    load_data parse csv = Ok tf
    /\ readings tf = Some []
    /\ overview strftime tf []
       = ([ ("Total Records", Count 0) ],
          Some (ValueError "NaTType does not support strftime"))
    /\ kpi_block []
       = ([ ("Avg Production Quality", Number NaN);
            ("Avg Machine Speed (RPM)", Number NaN);
            ("Avg Energy (kWh)", Number NaN) ],
          Some ZeroDivisionError)
    /\ optimal_pct [] = Raise ZeroDivisionError
    /\ summary_metrics [] = Raise ZeroDivisionError.
Proof.
  unfold timestamp_column. intros Hcol Hrows.
  unfold load_data, datetime_column.
  destruct (positions "DateTime" _) as [|j [|j' js]]; try discriminate.
  unfold column. cbn [rows rename]. rewrite Hrows.
  cbn [map to_datetime bind combine sort_values sort].
  eexists. split; [reflexivity|]. repeat split.
Qed.

Lemma empty_table_overview_witness :
  exists tf,
    load_data iso_datetime header_only_csv = Ok tf
    /\ readings tf = Some []
    /\ overview strftime_ymd tf []
       = ([ ("Total Records", Count 0) ],
          Some (ValueError "NaTType does not support strftime"))
    /\ kpi_block []
       = ([ ("Avg Production Quality", Number NaN);
            ("Avg Machine Speed (RPM)", Number NaN);
            ("Avg Energy (kWh)", Number NaN) ],
          Some ZeroDivisionError)
    /\ optimal_pct [] = Raise ZeroDivisionError
    /\ summary_metrics [] = Raise ZeroDivisionError.
Proof.
  apply (empty_table_overview iso_datetime strftime_ymd header_only_csv []); reflexivity.
Defined.

(** C1, as the specification has it, fails: on the file with a header and
    no row the run ends in a [ValueError] raised by the sidebar, and the
    KPI lines on their own end in a [ZeroDivisionError] after the averages
    have been shown as [NaN]. *)
Lemma empty_table_raises_other_errors :
  exists tf,
    load_data iso_datetime header_only_csv = Ok tf
    /\ total_records tf = 0
    /\ snd (overview strftime_ymd tf [])
       = Some (ValueError "NaTType does not support strftime")
    /\ snd (kpi_block []) = Some ZeroDivisionError
    /\ fst (kpi_block [])
       = [ ("Avg Production Quality", Number NaN);
           ("Avg Machine Speed (RPM)", Number NaN);
           ("Avg Energy (kWh)", Number NaN) ].
Proof. eexists. split; [vm_compute; reflexivity|]. repeat split. Qed.



(** ** Order statistics *)

Lemma Qle_bool_total (x y : Q) : Qle_bool x y = true \/ Qle_bool y x = true.
Proof.
  rewrite !Qle_bool_iff. destruct (Qlt_le_dec x y) as [H|H]; [left | right]; lra.
Qed.

Lemma Qle_bool_trans (x y z : Q) :
  Qle_bool x y = true -> Qle_bool y z = true -> Qle_bool x z = true.
Proof. rewrite !Qle_bool_iff. lra. Qed.

Lemma sort_Qle_sorted (xs : list Q) : StronglySorted Qle (sort Qle_bool xs).
Proof.
  pose proof (sort_sorted Qle_bool Qle_bool_total Qle_bool_trans xs) as H.
  induction H as [|x l Hs IH Hx]; constructor; [exact IH|].
  eapply Forall_impl; [|exact Hx]. intros y Hy. now apply Qle_bool_iff.
Qed.

Lemma rank_perm (v : Q) (s xs : list Q) : Permutation s xs -> rank v s = rank v xs.
Proof.
  unfold rank. induction 1 as [|x l l' Hp IH|x y l|l l' l'' H1 IH1 H2 IH2]; simpl.
  - reflexivity.
  - destruct (Qle_bool x v); simpl; now rewrite IH.
  - destruct (Qle_bool x v), (Qle_bool y v); reflexivity.
  - now rewrite IH1.
Qed.

Lemma rank_zero (v : Q) (s : list Q) :
  Forall (fun x => (v < x)%Q) s -> rank v s = 0%nat.
Proof.
  unfold rank. induction 1 as [|x l Hx Hl IH]; simpl; [reflexivity|].
  destruct (Qle_bool x v) eqn:E; [|exact IH].
  apply Qle_bool_iff in E. lra.
Qed.

(** In a sorted list, the element of rank [k] is at most [v] exactly when
    more than [k] elements are at most [v]. *)
Lemma nth_le_iff_rank (v d : Q) (s : list Q) :
  StronglySorted Qle s ->
  forall k, (k < List.length s)%nat -> ((nth k s d <= v)%Q <-> (k < rank v s)%nat).
Proof.
  induction 1 as [|a s Hs IH Ha]; intros k Hk; simpl in Hk; [lia|].
  unfold rank in *. simpl filter.
  destruct (Qle_bool a v) eqn:E.
  - apply Qle_bool_iff in E. destruct k as [|k]; simpl.
    + split; [lia | intros _; exact E].
    + rewrite IH by lia. lia.
  - assert (Hav : (v < a)%Q).
    { apply Qnot_le_lt. intros H. apply Qle_bool_iff in H. congruence. }
    assert (Hz : rank v s = 0%nat).
    { apply rank_zero. eapply Forall_impl; [|exact Ha]. intros x Hx. simpl in Hx. lra. }
    unfold rank in Hz. rewrite Hz. split; [|lia].
    intros Hle. exfalso. destruct k as [|k]; simpl in Hle; [lra|].
    assert (Hin : In (nth k s d) s) by (apply nth_In; lia).
    rewrite Forall_forall in Ha. specialize (Ha _ Hin). lra.
Qed.

(** Two ascending arrangements of the same values agree rank by rank. *)
Lemma sorted_perm_nth (s s' : list Q) (d d' : Q) :
  StronglySorted Qle s -> StronglySorted Qle s' -> Permutation s s' ->
  forall k, (k < List.length s)%nat -> (nth k s d == nth k s' d')%Q.
Proof.
  intros Hs Hs' Hp k Hk.
  assert (Hk' : (k < List.length s')%nat) by (rewrite <- (Permutation_length Hp); exact Hk).
  apply Qle_antisym.
  - apply (nth_le_iff_rank _ d s Hs k Hk).
    rewrite (rank_perm _ _ _ Hp).
    apply (nth_le_iff_rank _ d' s' Hs' k Hk'). apply Qle_refl.
  - apply (nth_le_iff_rank _ d' s' Hs' k Hk').
    rewrite <- (rank_perm _ _ _ Hp).
    apply (nth_le_iff_rank _ d s Hs k Hk). apply Qle_refl.
Qed.

Lemma lerp_eq (a b t : Q) : (lerp a b t == a + t * (b - a))%Q.
Proof. unfold lerp. destruct (Qle_bool (1 # 2) t); ring. Qed.

Lemma fractional_rank_bounds (n : Z) (p : Q) :
  1 <= n -> (0 <= p)%Q -> (p <= 1)%Q ->
  0 <= Qfloor (inject_Z (n - 1) * p) <= n - 1.
Proof.
  intros Hn H0 H1.
  assert (Hi : (0 <= inject_Z (n - 1))%Q).
  { change 0%Q with (inject_Z 0). rewrite <- Zle_Qle. lia. }
  split.
  - change 0 with (Qfloor 0). apply Qfloor_resp_le. now apply Qmult_le_0_compat.
  - rewrite <- (Qfloor_Z (n - 1)) at 2. apply Qfloor_resp_le. nra.
Qed.

(** The interpolated percentile is determined by the values. *)
Lemma is_percentile_unique (xs : list Q) (p v v' : Q) :
  is_percentile xs p v -> is_percentile xs p v' -> (v == v')%Q.
Proof.
  intros (s & Hp & Hs & Hv) (s' & Hp' & Hs' & Hv').
  cbv zeta in Hv, Hv'. rewrite Hv, Hv'.
  set (k := Z.to_nat (Qfloor (inject_Z (len xs - 1) * p))).
  assert (Hss : Permutation s s') by (eapply perm_trans; [exact Hp | now apply Permutation_sym]).
  assert (Hlen : List.length s = List.length s') by now apply Permutation_length.
  assert (Hk : (nth k s 0 == nth k s' 0)%Q).
  { destruct (Nat.lt_ge_cases k (List.length s)) as [H|H].
    - now apply sorted_perm_nth.
    - rewrite !nth_overflow by lia. reflexivity. }
  assert (HSk : (nth (S k) s (nth k s 0) == nth (S k) s' (nth k s' 0))%Q).
  { destruct (Nat.lt_ge_cases (S k) (List.length s)) as [H|H].
    - now apply sorted_perm_nth.
    - rewrite (nth_overflow s (n := S k)), (nth_overflow s' (n := S k)) by lia.
      exact Hk. }
  revert Hk HSk.
  generalize (nth (S k) s (nth k s 0%Q)) (nth (S k) s' (nth k s' 0%Q)).
  generalize (nth k s 0%Q) (nth k s' 0%Q).
  intros a a' b b' Hk HSk. rewrite Hk, HSk. reflexivity.
Qed.

(** [quantile] computes the interpolated percentile. *)
Lemma quantile_is_percentile (xs : list Q) (p : Q) :
  xs <> [] -> (0 <= p)%Q -> (p <= 1)%Q ->
  exists v, quantile xs p = Fin v /\ is_percentile xs p v.
Proof.
  intros Hne H0 H1. unfold quantile.
  destruct xs as [|x xs']; [contradiction|].
  set (xs := x :: xs') in *.
  assert (Hn : 1 <= len xs).
  { unfold xs. rewrite len_cons. pose proof (len_nonneg xs'). lia. }
  pose proof (fractional_rank_bounds (len xs) p Hn H0 H1) as Hlo.
  eexists. split; [reflexivity|].
  exists (sort Qle_bool xs).
  split; [apply sort_perm|]. split; [apply sort_Qle_sorted|].
  cbv zeta. rewrite lerp_eq.
  set (h := (inject_Z (len xs - 1) * p)%Q) in *.
  set (s := sort Qle_bool xs).
  assert (Hlen : len xs = Z.of_nat (List.length s)).
  { unfold s, len. now rewrite sort_length. }
  assert (Hhi : (nth (Z.to_nat (Z.min (Qfloor h + 1) (len xs - 1))) s 0
                 == nth (S (Z.to_nat (Qfloor h))) s (nth (Z.to_nat (Qfloor h)) s 0))%Q).
  { destruct (Z.le_gt_cases (Qfloor h + 1) (len xs - 1)) as [H|H].
    - rewrite Z.min_l by lia.
      replace (Z.to_nat (Qfloor h + 1)) with (S (Z.to_nat (Qfloor h))) by lia.
      rewrite (nth_indep s 0%Q (nth (Z.to_nat (Qfloor h)) s 0%Q)) by lia. reflexivity.
    - rewrite Z.min_r by lia.
      rewrite (nth_overflow s (n := S (Z.to_nat (Qfloor h)))) by lia.
      replace (len xs - 1) with (Qfloor h) by lia. reflexivity. }
  rewrite Hhi. reflexivity.
Qed.

Lemma percentile_95 : (0 <= 95 # 100)%Q /\ (95 # 100 <= 1)%Q.
Proof. split; unfold Qle; simpl; lia. Qed.

Lemma percentile_5 : (0 <= 5 # 100)%Q /\ (5 # 100 <= 1)%Q.
Proof. split; unfold Qle; simpl; lia. Qed.

(** ** Quick alerts *)

Example alert_conditions_sample :
  alert_conditions sample_table
  = [ ("High Vibration", 1); ("Low Quality", 1); ("High Energy", 1) ].
Proof. vm_compute. reflexivity. Qed.

Lemma count_true_pos (bs : list bool) : In true bs -> 1 <= count_true bs.
Proof.
  induction bs as [|b bs IH]; intros H; [destruct H|].
  rewrite count_true_cons. pose proof (count_true_bounds bs) as Hb.
  destruct H as [->|H]; [lia|]. specialize (IH H). destruct b; lia.
Qed.

Lemma rank_app (v : Q) (xs ys : list Q) : rank v (xs ++ ys) = (rank v xs + rank v ys)%nat.
Proof. unfold rank. now rewrite filter_app, length_app. Qed.

Lemma rank_all (v : Q) (xs : list Q) :
  Forall (fun x => (x <= v)%Q) xs -> rank v xs = List.length xs.
Proof.
  unfold rank. induction 1 as [|x l Hx Hl IH]; simpl; [reflexivity|].
  apply Qle_bool_iff in Hx. rewrite Hx. simpl. now rewrite IH.
Qed.

(** C9.  In a table of 100 rows whose vibration is between 0 and 10 except
    for one row at 1000, the 95th-percentile threshold is below 1000 and
    the high-vibration count is at least 1. *)
Theorem outlier_raises_alert (pre post : SensorTable) (r : SensorReading) :
  List.length (pre ++ r :: post)%list = 100%nat ->
  (Vibration_Level r == 1000)%Q ->
  Forall (fun r' => (0 <= Vibration_Level r')%Q /\ (Vibration_Level r' <= 10)%Q)
         (pre ++ post)%list ->
  exists (thr : Q) (n : Z),
    quantile (map Vibration_Level (pre ++ r :: post)%list) (95 # 100) = Fin thr
    /\ (thr < 1000)%Q
    /\ In ("High Vibration", n) (alert_conditions (pre ++ r :: post)%list)
    /\ 1 <= n.
Proof.
  intros Hlen Hr Hrest.
  set (df := (pre ++ r :: post)%list) in *.
  set (xs := map Vibration_Level df).
  assert (Hxlen : List.length xs = 100%nat) by (unfold xs; now rewrite length_map).
  assert (Hne : xs <> []) by (intros E; rewrite E in Hxlen; discriminate).
  destruct percentile_95 as [H0 H1].
  destruct (quantile_is_percentile xs _ Hne H0 H1) as (thr & Hq & s & Hp & Hs & Hv).
  assert (Hslen : List.length s = 100%nat) by (rewrite (Permutation_length Hp); exact Hxlen).
  unfold len in Hv. rewrite Hxlen in Hv. cbv zeta in Hv.
  change (Z.to_nat (Qfloor (inject_Z (Z.of_nat 100 - 1) * (95 # 100)))) with 94%nat in Hv.
  assert (Ht : (inject_Z (Z.of_nat 100 - 1) * (95 # 100)
                - inject_Z (Qfloor (inject_Z (Z.of_nat 100 - 1) * (95 # 100))) == 1 # 20)%Q)
    by (vm_compute; reflexivity).
  rewrite Ht in Hv. clear Ht.
  assert (Hrank : rank 10 s = 99%nat).
  { rewrite (rank_perm _ _ _ Hp). unfold xs, df.
    rewrite map_app, rank_app. simpl map. unfold rank at 2. simpl filter.
    assert (E : Qle_bool (Vibration_Level r) 10 = false).
    { apply not_true_iff_false. rewrite Qle_bool_iff, Hr. unfold Qle; simpl; lia. }
    rewrite E. fold (rank 10 (map Vibration_Level post)).
    rewrite <- rank_app, <- map_app, rank_all.
    - rewrite length_map. unfold df in Hlen. rewrite length_app in Hlen |- *.
      simpl in Hlen. lia.
    - apply Forall_map. eapply Forall_impl; [|exact Hrest]. intros r' H. apply H. }
  assert (Ha : (nth 94 s 0 <= 10)%Q).
  { apply (nth_le_iff_rank 10%Q 0%Q s Hs 94); lia. }
  assert (Hb : (nth 95 s (nth 94 s 0) <= 10)%Q).
  { apply (nth_le_iff_rank 10%Q _ s Hs 95); lia. }
  assert (Hthr : (thr < 1000)%Q) by (rewrite Hv; lra).
  exists thr, (high_count xs). repeat split.
  - exact Hq.
  - exact Hthr.
  - left. reflexivity.
  - unfold high_count. rewrite Hq. apply count_true_pos.
    apply in_map_iff. exists (Vibration_Level r). split.
    + simpl. apply Qlt_bool_iff. now rewrite Hr.
    + unfold xs, df. apply in_map, in_elt.
Qed.

Lemma outlier_raises_alert_witness :
  exists (thr : Q) (n : Z),
    quantile (map Vibration_Level outlier_table) (95 # 100) = Fin thr
    /\ (thr < 1000)%Q
    /\ In ("High Vibration", n) (alert_conditions outlier_table)
    /\ 1 <= n.
Proof.
  apply (outlier_raises_alert (map outlier_reading (seq 0 50)) (map outlier_reading (seq 51 49))
                              (outlier_reading 50)).
  - reflexivity.
  - reflexivity.
  - apply Forall_forall. intros x Hx.
    assert (H : forallb (fun r' => Qle_bool 0 (Vibration_Level r')
                                   && Qle_bool (Vibration_Level r') 10)
                        (map outlier_reading (seq 0 50) ++ map outlier_reading (seq 51 49))%list
                = true) by (vm_compute; reflexivity).
    rewrite forallb_forall in H. specialize (H x Hx).
    apply andb_true_iff in H. now rewrite !Qle_bool_iff in H.
Defined.

Example alert_conditions_outlier :
  alert_conditions outlier_table
  = [ ("High Vibration", 1); ("Low Quality", 0); ("High Energy", 0) ].
Proof. vm_compute. reflexivity. Qed.

(** The percentile of a constant series is that constant. *)
Lemma constant_quantile (xs : list Q) (c p : Q) :
  xs <> [] -> (0 <= p)%Q -> (p <= 1)%Q ->
  Forall (fun x => (x == c)%Q) xs ->
  exists v, quantile xs p = Fin v /\ (v == c)%Q.
Proof.
  intros Hne H0 H1 Hc.
  destruct (quantile_is_percentile xs p Hne H0 H1) as (v & Hq & s & Hp & _ & Hv).
  exists v. split; [exact Hq|].
  assert (Hn : 1 <= len xs).
  { destruct xs; [contradiction | rewrite len_cons; pose proof (len_nonneg xs); lia]. }
  pose proof (fractional_rank_bounds (len xs) p Hn H0 H1) as Hlo.
  cbv zeta in Hv.
  set (k := Z.to_nat (Qfloor (inject_Z (len xs - 1) * p))) in *.
  assert (Hs : forall x, In x s -> (x == c)%Q).
  { apply Forall_forall. eapply Permutation_Forall; [apply Permutation_sym, Hp | exact Hc]. }
  assert (Hk : (k < List.length s)%nat).
  { rewrite (Permutation_length Hp). unfold k, len in *. lia. }
  assert (Ha : (nth k s 0 == c)%Q) by (apply Hs, nth_In, Hk).
  assert (Hb : (nth (S k) s (nth k s 0) == c)%Q).
  { destruct (Nat.lt_ge_cases (S k) (List.length s)) as [H|H].
    - apply Hs, nth_In, H.
    - rewrite nth_overflow by lia. exact Ha. }
  rewrite Hv. revert Ha Hb.
  generalize (nth (S k) s (nth k s 0%Q)). generalize (nth k s 0%Q).
  intros a b Ha Hb. rewrite Ha, Hb. ring.
Qed.

Lemma constant_high_count (xs : list Q) (c : Q) :
  xs <> [] -> Forall (fun x => (x == c)%Q) xs -> high_count xs = 0.
Proof.
  intros Hne Hc. destruct percentile_95 as [H0 H1].
  destruct (constant_quantile xs c _ Hne H0 H1 Hc) as (v & Hq & Hv).
  unfold high_count. rewrite Hq. apply count_true_none.
  intros b Hb. apply in_map_iff in Hb as (x & <- & Hx).
  rewrite Forall_forall in Hc. specialize (Hc x Hx).
  apply not_true_iff_false. simpl. rewrite Qlt_bool_iff, Hv, Hc.
  apply Qlt_irrefl.
Qed.

Lemma constant_low_count (xs : list Q) (c : Q) :
  xs <> [] -> Forall (fun x => (x == c)%Q) xs -> low_count xs = 0.
Proof.
  intros Hne Hc. destruct percentile_5 as [H0 H1].
  destruct (constant_quantile xs c _ Hne H0 H1 Hc) as (v & Hq & Hv).
  unfold low_count. rewrite Hq. apply count_true_none.
  intros b Hb. apply in_map_iff in Hb as (x & <- & Hx).
  rewrite Forall_forall in Hc. specialize (Hc x Hx).
  apply not_true_iff_false. simpl. rewrite Qlt_bool_iff, Hv, Hc.
  apply Qlt_irrefl.
Qed.

Lemma constant_column {R : Type} (f : R -> Q) (df : list R) (c : Q) :
  df <> [] -> (forall r, In r df -> (f r == c)%Q) ->
  map f df <> [] /\ Forall (fun x => (x == c)%Q) (map f df).
Proof.
  intros Hne Hc. split.
  - destruct df; [contradiction | discriminate].
  - apply Forall_map, Forall_forall. exact Hc.
Qed.

(** C10.  On a table with rows, a monitored field that has the same value
    in every row raises no alert: the percentile threshold is that value,
    no row is strictly beyond it, the count is 0 and the report takes the
    no-issues branch for it. *)
Theorem constant_field_no_alert (df : SensorTable) :
  df <> [] ->
  (forall c, (forall r, In r df -> (Vibration_Level r == c)%Q) ->
             (exists v, quantile (map Vibration_Level df) (95 # 100) = Fin v /\ (v == c)%Q)
             /\ nth_error (alert_conditions df) 0 = Some ("High Vibration", 0)
             /\ nth_error (report (alert_conditions df)) 0
                = Some (st_success "High Vibration"))
  /\ (forall c, (forall r, In r df -> (Production_Quality_Score r == c)%Q) ->
                (exists v, quantile (map Production_Quality_Score df) (5 # 100) = Fin v
                           /\ (v == c)%Q)
                /\ nth_error (alert_conditions df) 1 = Some ("Low Quality", 0)
                /\ nth_error (report (alert_conditions df)) 1
                   = Some (st_success "Low Quality"))
  /\ (forall c, (forall r, In r df -> (Energy_Consumption r == c)%Q) ->
                (exists v, quantile (map Energy_Consumption df) (95 # 100) = Fin v
                           /\ (v == c)%Q)
                /\ nth_error (alert_conditions df) 2 = Some ("High Energy", 0)
                /\ nth_error (report (alert_conditions df)) 2
                   = Some (st_success "High Energy")).
Proof.
  intros Hne. unfold alert_conditions, report.
  destruct percentile_95 as [Ha Hb]. destruct percentile_5 as [Hc' Hd].
  split; [|split]; intros c Hc;
    destruct (constant_column _ df c Hne Hc) as [Hx Hall]; cbn [map nth_error].
  - split; [now apply constant_quantile|].
    rewrite (constant_high_count _ c Hx Hall). split; reflexivity.
  - split; [now apply constant_quantile|].
    rewrite (constant_low_count _ c Hx Hall). split; reflexivity.
  - split; [now apply constant_quantile|].
    rewrite (constant_high_count _ c Hx Hall). split; reflexivity.
Qed.

Lemma constant_field_no_alert_witness :
  report (alert_conditions steady_table)
  = [ st_success "High Vibration"; st_success "Low Quality"; st_success "High Energy" ]
  /\ nth_error (alert_conditions steady_table) 0 = Some ("High Vibration", 0)
  /\ nth_error (alert_conditions steady_table) 1 = Some ("Low Quality", 0)
  /\ nth_error (alert_conditions steady_table) 2 = Some ("High Energy", 0).
Proof.
  assert (Hne : steady_table <> []) by discriminate.
  destruct (constant_field_no_alert steady_table Hne) as (Hv & Hq & He).
  assert (H1 : forall r, In r steady_table -> (Vibration_Level r == 5 # 2)%Q).
  { intros r H. unfold steady_table in H. simpl in H.
    repeat (destruct H as [<-|H]; [reflexivity|]). destruct H. }
  assert (H2 : forall r, In r steady_table -> (Production_Quality_Score r == 90)%Q).
  { intros r H. unfold steady_table in H. simpl in H.
    repeat (destruct H as [<-|H]; [reflexivity|]). destruct H. }
  assert (H3 : forall r, In r steady_table -> (Energy_Consumption r == 3 # 2)%Q).
  { intros r H. unfold steady_table in H. simpl in H.
    repeat (destruct H as [<-|H]; [reflexivity|]). destruct H. }
  split; [vm_compute; reflexivity|].
  split; [apply (Hv _ H1)|]. split; [apply (Hq _ H2) | apply (He _ H3)].
Defined.

(** ** Hourly trends *)

Lemma min_ts_spec (r : SensorReading) (rest : SensorTable) :
  (forall x, In x (r :: rest) -> min_ts r rest <= DateTime x)
  /\ exists x, In x (r :: rest) /\ DateTime x = min_ts r rest.
Proof.
  unfold min_ts. induction rest as [|y rest [IHle (x & Hx & IHx)]]; simpl.
  - split; [intros x [<-|[]]; lia | exists r; auto].
  - split.
    + intros z [<-|[<-|Hz]].
      * specialize (IHle r (or_introl eq_refl)). lia.
      * lia.
      * specialize (IHle z (or_intror Hz)). lia.
    + destruct (Z.min_spec (DateTime y) (fold_right Z.min (DateTime r) (map DateTime rest)))
        as [[_ ->]|[_ ->]].
      * exists y. auto.
      * exists x. split; [|exact IHx]. destruct Hx as [<-|Hx]; auto.
Qed.

Lemma max_ts_spec (r : SensorReading) (rest : SensorTable) :
  (forall x, In x (r :: rest) -> DateTime x <= max_ts r rest)
  /\ exists x, In x (r :: rest) /\ DateTime x = max_ts r rest.
Proof.
  unfold max_ts. induction rest as [|y rest [IHle (x & Hx & IHx)]]; simpl.
  - split; [intros x [<-|[]]; lia | exists r; auto].
  - split.
    + intros z [<-|[<-|Hz]].
      * specialize (IHle r (or_introl eq_refl)). lia.
      * lia.
      * specialize (IHle z (or_intror Hz)). lia.
    + destruct (Z.max_spec (DateTime y) (fold_right Z.max (DateTime r) (map DateTime rest)))
        as [[_ ->]|[_ ->]].
      * exists x. split; [|exact IHx]. destruct Hx as [<-|Hx]; auto.
      * exists y. auto.
Qed.

Lemma min_le_max_ts (r : SensorReading) (rest : SensorTable) :
  min_ts r rest <= max_ts r rest.
Proof.
  destruct (min_ts_spec r rest) as [Hmin _]. destruct (max_ts_spec r rest) as [Hmax _].
  specialize (Hmin r (or_introl eq_refl)). specialize (Hmax r (or_introl eq_refl)). lia.
Qed.

Lemma hour_pos : 0 < hour.
Proof. reflexivity. Qed.

Lemma in_bucket_iff (start : Z) (r : SensorReading) :
  in_bucket start r = true <-> in_window start r.
Proof.
  unfold in_bucket, in_window. rewrite andb_true_iff, Z.leb_le, Z.ltb_lt. tauto.
Qed.

Lemma resample_length (r : SensorReading) (rest : SensorTable) :
  len (resample_1h_mean (r :: rest)) = max_ts r rest / hour - min_ts r rest / hour + 1.
Proof.
  unfold resample_1h_mean, len. rewrite length_map, length_seq.
  pose proof (Z.div_le_mono _ _ hour hour_pos (min_le_max_ts r rest)). lia.
Qed.

Lemma resample_nth (r : SensorReading) (rest : SensorTable) (k : nat) (b : HourlyAggregate) :
  nth_error (resample_1h_mean (r :: rest)) k = Some b ->
  b = bucket (r :: rest) ((min_ts r rest / hour + Z.of_nat k) * hour).
Proof.
  unfold resample_1h_mean. intros H.
  rewrite nth_error_map in H.
  destruct (nth_error (seq 0 _) k) as [k'|] eqn:E; [|discriminate].
  simpl in H. injection H as <-.
  assert (Hk : (k < List.length (seq 0 (Z.to_nat (max_ts r rest / hour - min_ts r rest / hour + 1))))%nat)
    by (apply nth_error_Some; congruence).
  rewrite length_seq in Hk.
  rewrite (nth_error_nth' _ 0%nat) in E by (rewrite length_seq; exact Hk).
  rewrite seq_nth in E by exact Hk. injection E as <-. reflexivity.
Qed.

(** C4, as the code has it.  The buckets of a table with rows are the
    one-hour windows that start on the hour, from the hour of the earliest
    reading to the hour of the latest one, without a gap; their number is
    the number of hour boundaries crossed, plus one.  That is the whole or
    partial hours of the time span, or one more, and never zero. *)
Theorem hourly_bucket_count (r : SensorReading) (rest : SensorTable) :
  len (resample_1h_mean (r :: rest))
  = max_ts r rest / hour - min_ts r rest / hour + 1
  /\ ceil_hours (time_span (r :: rest)) <= len (resample_1h_mean (r :: rest))
     <= ceil_hours (time_span (r :: rest)) + 1
  /\ 1 <= len (resample_1h_mean (r :: rest))
  /\ (forall k b, nth_error (resample_1h_mean (r :: rest)) k = Some b ->
                  bucket_start b = (min_ts r rest / hour + Z.of_nat k) * hour)
  /\ (forall x, In x (r :: rest) ->
                exists k b, nth_error (resample_1h_mean (r :: rest)) k = Some b
                            /\ in_window (bucket_start b) x).
Proof.
  pose proof (min_le_max_ts r rest) as Hmm.
  pose proof (Z.div_le_mono _ _ hour hour_pos Hmm) as Hdiv.
  pose proof (resample_length r rest) as Hlen.
  split; [exact Hlen|]. split; [|split; [lia|split]].
  - rewrite Hlen. unfold ceil_hours, time_span.
    pose proof hour_pos as Hh.
    pose proof (Z.div_mod (max_ts r rest) hour) as E1.
    pose proof (Z.div_mod (min_ts r rest) hour) as E2.
    pose proof (Z.mod_pos_bound (max_ts r rest) hour Hh) as B1.
    pose proof (Z.mod_pos_bound (min_ts r rest) hour Hh) as B2.
    pose proof (Z.div_mod (- (max_ts r rest - min_ts r rest)) hour) as E3.
    pose proof (Z.mod_pos_bound (- (max_ts r rest - min_ts r rest)) hour Hh) as B3.
    nia.
  - intros k b H. apply resample_nth in H. now subst b.
  - intros x Hx.
    destruct (min_ts_spec r rest) as [Hmin _]. destruct (max_ts_spec r rest) as [Hmax _].
    specialize (Hmin x Hx). specialize (Hmax x Hx).
    pose proof hour_pos as Hh.
    pose proof (Z.div_le_mono _ _ hour Hh Hmin) as D1.
    pose proof (Z.div_le_mono _ _ hour Hh Hmax) as D2.
    set (k := Z.to_nat (DateTime x / hour - min_ts r rest / hour)).
    assert (Hk : (k < List.length (resample_1h_mean (r :: rest)))%nat).
    { unfold len in Hlen. lia. }
    destruct (nth_error (resample_1h_mean (r :: rest)) k) as [b|] eqn:E;
      [|apply nth_error_None in E; lia].
    exists k, b. split; [exact E|].
    apply resample_nth in E. subst b. unfold in_window, bucket. simpl.
    replace (min_ts r rest / hour + Z.of_nat k) with (DateTime x / hour) by lia.
    pose proof (Z.div_mod (DateTime x) hour) as E1.
    pose proof (Z.mod_pos_bound (DateTime x) hour Hh) as B1. lia.
Qed.

(** C4, as the specification has it, fails: a table with one reading has
    one bucket while its time span has no hour in it, and two readings on
    successive hour boundaries give two buckets for a span of one hour. *)
Lemma bucket_count_is_not_ceil :
  len (resample_1h_mean single_table) = 1
  /\ ceil_hours (time_span single_table) = 0
  /\ len (resample_1h_mean boundary_table) = 2
  /\ ceil_hours (time_span boundary_table) = 1.
Proof. repeat split. Qed.

Lemma resample_In (df : SensorTable) (b : HourlyAggregate) :
  In b (resample_1h_mean df) -> b = bucket df (bucket_start b).
Proof.
  destruct df as [|r rest]; [intros []|].
  unfold resample_1h_mean. rewrite in_map_iff. intros (k & <- & _). reflexivity.
Qed.

Lemma filter_nil_iff {A : Type} (f : A -> bool) (l : list A) :
  filter f l = [] <-> forall x, In x l -> f x = false.
Proof.
  induction l as [|a l IH]; simpl.
  - split; [intros _ x [] | reflexivity].
  - destruct (f a) eqn:E.
    + split; [discriminate|]. intros H. specialize (H a (or_introl eq_refl)). congruence.
    + rewrite IH. split.
      * intros H x [<-|Hx]; [exact E | now apply H].
      * intros H x Hx. apply H. now right.
Qed.

Lemma resample_has_bucket (r : SensorReading) (rest : SensorTable) (start : Z) :
  start mod hour = 0 ->
  min_ts r rest / hour * hour <= start <= max_ts r rest ->
  In (bucket (r :: rest) start) (resample_1h_mean (r :: rest)).
Proof.
  intros Hmod [Hlo Hhi]. pose proof hour_pos as Hh.
  assert (Hs : start = start / hour * hour).
  { pose proof (Z.div_mod start hour). lia. }
  assert (D1 : min_ts r rest / hour <= start / hour) by nia.
  assert (D2 : start / hour <= max_ts r rest / hour) by (apply Z.div_le_mono; lia).
  unfold resample_1h_mean. apply in_map_iff.
  exists (Z.to_nat (start / hour - min_ts r rest / hour)). split.
  - f_equal. rewrite Hs at 2. f_equal. lia.
  - apply in_seq. lia.
Qed.

(** C8.  A bucket of the hourly aggregates has the no-data marker in each
    of its fields exactly when no reading falls in its window; every
    one-hour window of the time range without a reading is there in the
    result, with the marker; and the marker is not a number, so not
    zero. *)
Theorem empty_bucket_no_data (df : SensorTable) :
  (forall b, In b (resample_1h_mean df) ->
             (no_data b <-> forall x, In x df -> ~ in_window (bucket_start b) x))
  /\ (forall r rest start,
        df = r :: rest ->
        start mod hour = 0 ->
        min_ts r rest / hour * hour <= start <= max_ts r rest ->
        (forall x, In x df -> ~ in_window start x) ->
        exists b, In b (resample_1h_mean df) /\ bucket_start b = start /\ no_data b)
  /\ (forall b, no_data b ->
        forall q : Q,
          h_Vibration_Level b <> Fin q /\ h_Machine_Speed b <> Fin q
          /\ h_Production_Quality_Score b <> Fin q /\ h_Optimal_Conditions b <> Fin q
          /\ h_Energy_Consumption b <> Fin q /\ h_Temperature b <> Fin q).
Proof.
  assert (Hiff : forall b, In b (resample_1h_mean df) ->
                 (no_data b <-> forall x, In x df -> ~ in_window (bucket_start b) x)).
  { intros b Hb. apply resample_In in Hb.
    set (start := bucket_start b) in *.
    assert (Hempty : filter (in_bucket start) df = []
                     <-> forall x, In x df -> ~ in_window start x).
    { rewrite filter_nil_iff. split; intros H x Hx; specialize (H x Hx).
      - rewrite <- in_bucket_iff. congruence.
      - apply not_true_iff_false. now rewrite in_bucket_iff. }
    rewrite <- Hempty, Hb. unfold no_data, bucket. simpl. rewrite !mean_nan_iff. split.
    - intros (H & _). now apply map_eq_nil in H.
    - intros ->. repeat split. }
  split; [exact Hiff|]. split.
  - intros r rest start -> Hmod Hrange Hnone.
    pose proof (resample_has_bucket r rest start Hmod Hrange) as Hin.
    exists (bucket (r :: rest) start). split; [exact Hin|]. split; [reflexivity|].
    apply (Hiff _ Hin). exact Hnone.
  - intros b (-> & -> & -> & -> & -> & ->) q. repeat split; discriminate.
Qed.

Lemma empty_bucket_no_data_witness :
  exists b, In b (resample_1h_mean sample_table)
            /\ bucket_start b = 1704070800000000000
            /\ no_data b.
Proof.
  destruct (empty_bucket_no_data sample_table) as (_ & H & _).
  apply (H (mkReading 1704068100000000000 (1 # 10) 1450 80 false 1 70)
           (tl sample_table) 1704070800000000000).
  - reflexivity.
  - reflexivity.
  - vm_compute. split; discriminate.
  - intros x Hx. unfold sample_table in Hx. simpl in Hx.
    unfold in_window.
    repeat (destruct Hx as [<-|Hx]; [cbn [DateTime]; unfold hour; lia|]).
    destruct Hx.
Defined.

Example resample_sample :
  map bucket_start (resample_1h_mean sample_table)
  = [ 1704067200000000000; 1704070800000000000; 1704074400000000000 ]
  /\ map h_Machine_Speed (resample_1h_mean sample_table) = [ Fin (3000 # 2); NaN; Fin 1500 ].
Proof. split; vm_compute; reflexivity. Qed.

(** * Further properties of the pipeline *)

Example strftime_sample : strftime_ymd 1704075000000000000 = "2024-01-01".
Proof. vm_compute. reflexivity. Qed.

Example strftime_leap_day : strftime_ymd 1709251199000000000 = "2024-02-29".
Proof. vm_compute. reflexivity. Qed.

Example date_range_sample :
  match load_data iso_datetime sample_csv with
  | Ok tf => date_range strftime_ymd tf = Ok "2024-01-01 to 2024-01-01"
  | Raise _ => False
  end.
Proof. vm_compute. reflexivity. Qed.

(** ** The loader: outcome, rows and columns *)

Lemma Forall2_parsed_ok (parse : cell -> option Z) (col : list cell) (stamps : list Timestamp) :
  Forall2 (fun c s => match s with
                      | None => c = Num NaN
                      | Some t => c <> Num NaN /\ parse c = Some t
                      end) col stamps ->
  Forall (fun c => ~ unparsable parse c) col.
Proof.
  induction 1 as [|c s col stamps Hc _ IH]; constructor; [|exact IH].
  intros [Hn Hp]. destruct s as [t|]; [destruct Hc; congruence | contradiction].
Qed.

(** X1.  [load_data] returns a table exactly when the file has one timestamp
    column and every cell of it that holds a value parses. *)
Theorem load_data_succeeds_iff (parse : cell -> option Z) (csv : DataFrame) :
  (exists tf, load_data parse csv = Ok tf)
  <-> (exists col, timestamp_column csv = Some col
                   /\ Forall (fun c => ~ unparsable parse c) col).
Proof.
  split.
  - intros (tf & H). unfold timestamp_column.
    unfold load_data, datetime_column in H.
    destruct (positions "DateTime" _) as [|j [|j' js]]; try discriminate.
    exists (column j csv). split; [reflexivity|].
    change (column j (rename [("Timestamp", "DateTime")] csv)) with (column j csv) in H.
    destruct (to_datetime parse (column j csv)) as [stamps|e] eqn:E; [|discriminate].
    eapply Forall2_parsed_ok, to_datetime_Ok, E.
  - intros (col & Hcol & Hall). unfold timestamp_column in Hcol.
    unfold load_data, datetime_column.
    destruct (positions "DateTime" _) as [|j [|j' js]]; try discriminate.
    injection Hcol as <-.
    destruct (to_datetime_parses parse (column j csv) Hall) as (stamps & Hs & _).
    change (column j (rename [("Timestamp", "DateTime")] csv)) with (column j csv).
    rewrite Hs. simpl. eexists. reflexivity.
Qed.

Lemma load_data_succeeds_iff_witness :
  exists tf, load_data iso_datetime missing_timestamp_csv = Ok tf.
Proof.
  apply (load_data_succeeds_iff iso_datetime missing_timestamp_csv).
  exists (column 0 missing_timestamp_csv). split; [reflexivity|].
  repeat constructor; intros [Hn H]; try (vm_compute in H; discriminate).
  now apply Hn.
Defined.

(** X2.  The rows of a loaded table are the rows of the file, each one once,
    labelled with its own timestamp ([NaT] when the cell is empty) and
    with its other cells untouched: no row is dropped or made up. *)
Theorem load_data_keeps_rows (parse : cell -> option Z) (csv : DataFrame) (tf : TimeFrame) :
  load_data parse csv = Ok tf ->
  exists j stamps,
    positions "DateTime" (columns (rename [("Timestamp", "DateTime")] csv)) = [j]
    /\ Forall2 (fun c s => match s with
                           | None => c = Num NaN
                           | Some t => c <> Num NaN /\ parse c = Some t
                           end) (column j csv) stamps
    /\ Permutation (trows tf) (combine stamps (map (remove_nth j) (rows csv)))
    /\ total_records tf = len (rows csv).
Proof.
  intros H.
  destruct (load_data_rows parse csv tf H) as (j & stamps & Hj & HF & Hp & Hlen).
  exists j, stamps. repeat split; try assumption.
  unfold total_records, len. now rewrite Hlen.
Qed.

Lemma load_data_keeps_rows_witness :
  exists tf, load_data iso_datetime missing_timestamp_csv = Ok tf
             /\ total_records tf = 4
             /\ index tf = [ Some 1704068100000000000; Some 1704069900000000000;
                             Some 1704075000000000000; None ].
Proof.
  assert (H : exists tf, load_data iso_datetime missing_timestamp_csv = Ok tf)
    by (eexists; vm_compute; reflexivity).
  destruct H as (tf & Htf).
  exists tf. split; [exact Htf|].
  destruct (load_data_keeps_rows iso_datetime missing_timestamp_csv tf Htf)
    as (j & stamps & _ & _ & _ & Hn).
  split; [exact Hn|].
  vm_compute in Htf. injection Htf as <-. reflexivity.
Defined.

Lemma positions_renamed_length (cols : list string) :
  forall i,
    List.length (positions_from i "DateTime"
                   (map (rename_label [("Timestamp", "DateTime")]) cols))
    = (List.length (positions_from i "Timestamp" cols)
       + List.length (positions_from i "DateTime" cols))%nat.
Proof.
  induction cols as [|c cols IH]; intros i; [reflexivity|].
  cbn [map positions_from]. unfold rename_label at 1, lookup.
  destruct (String.eqb_spec "Timestamp" c) as [E|N].
  - subst c. cbn [positions_from]. rewrite String.eqb_refl.
    replace (String.eqb "Timestamp" "DateTime") with false by reflexivity.
    replace (String.eqb "DateTime" "DateTime") with true by reflexivity.
    cbn [List.length]. now rewrite IH.
  - destruct (String.eqb_spec c "Timestamp") as [E'|_]; [congruence|].
    destruct (String.eqb c "DateTime"); cbn [List.length]; rewrite IH; lia.
Qed.

Lemma positions_from_present (name : string) (cols : list string) :
  In name cols -> forall i, (1 <= List.length (positions_from i name cols))%nat.
Proof.
  induction cols as [|c cols IH]; intros Hin i; [destruct Hin|].
  cbn [positions_from]. destruct (String.eqb_spec c name) as [E|N].
  - cbn [List.length]. lia.
  - destruct Hin as [E|Hin]; [congruence | now apply IH].
Qed.

(** X3.  A file that has a [Timestamp] column and a [DateTime] column cannot be
    loaded: after the first renaming two columns are called [DateTime],
    and [to_datetime] refuses the pair. *)
Theorem load_data_two_timestamps (parse : cell -> option Z) (csv : DataFrame) :
  In "Timestamp" (columns csv) ->
  In "DateTime" (columns csv) ->
  load_data parse csv = Raise (ValueError "cannot assemble with duplicate keys").
Proof.
  intros Ht Hd. unfold load_data, datetime_column, positions.
  pose proof (positions_renamed_length (columns csv) 0) as Hlen.
  pose proof (positions_from_present _ _ Ht 0) as H1.
  pose proof (positions_from_present _ _ Hd 0) as H2.
  cbn [columns rename] in *.
  destruct (positions_from 0 "DateTime" _) as [|j [|j' js]];
    cbn [List.length] in Hlen; try lia.
  reflexivity.
Qed.

Lemma load_data_two_timestamps_witness :
  load_data iso_datetime two_timestamps_csv
  = Raise (ValueError "cannot assemble with duplicate keys").
Proof.
  apply (load_data_two_timestamps iso_datetime two_timestamps_csv).
  - right. left. reflexivity.
  - left. reflexivity.
Defined.

Lemma positions_from_nil (name : string) (cols : list string) :
  forall i, positions_from i name cols = [] -> ~ In name cols.
Proof.
  induction cols as [|c cols IH]; intros i H; [intros []|].
  cbn [positions_from] in H. destruct (String.eqb_spec c name) as [E|N]; [discriminate|].
  intros [E|Hin]; [congruence | exact (IH _ H Hin)].
Qed.

Lemma positions_from_single (name : string) (cols : list string) :
  forall i j, positions_from i name cols = [j] ->
  exists k, j = (i + k)%nat /\ (k < List.length cols)%nat
            /\ ~ In name (remove_nth k cols)
            /\ List.length cols = S (List.length (remove_nth k cols))
            /\ (forall x, In x cols -> x <> name -> In x (remove_nth k cols)).
Proof.
  induction cols as [|c cols IH]; intros i j H; [discriminate|].
  cbn [positions_from] in H. destruct (String.eqb_spec c name) as [E|N].
  - injection H as <- H. exists 0%nat. cbn [remove_nth List.length].
    repeat split; try lia.
    + now apply positions_from_nil in H.
    + intros x [Ex|Hx] Hn; [congruence | exact Hx].
  - destruct (IH _ _ H) as (k & -> & Hk & Hnot & Hlen & Hkeep).
    exists (S k). cbn [remove_nth List.length]. repeat split; try lia.
    + intros [Ex|Hx]; [congruence | contradiction].
    + intros x [Ex|Hx] Hn; [now left | right; now apply Hkeep].
Qed.

Lemma lookup_targets (c new : string) :
  lookup column_names c = Some new ->
  In new [ "DateTime"; "Vibration_Level"; "Machine_Speed"; "Production_Quality_Score";
           "Optimal_Conditions"; "Energy_Consumption"; "Temperature" ].
Proof.
  unfold column_names. cbn [lookup].
  repeat match goal with
         | |- context [String.eqb ?k c] =>
             destruct (String.eqb k c); [intros H; injection H as <-; simpl; tauto|]
         end.
  discriminate.
Qed.

Lemma lookup_Timestamp (c : string) :
  lookup column_names c = Some "DateTime" -> c = "Timestamp".
Proof.
  unfold column_names. cbn [lookup].
  destruct (String.eqb_spec "Timestamp" c) as [E|_]; [now intros _|].
  repeat match goal with
         | |- context [String.eqb ?k c] => destruct (String.eqb k c); [discriminate|]
         end.
  discriminate.
Qed.

(** Renaming by the static table twice is renaming once: no internal name
    is itself a source name. *)
Lemma rename_label_idempotent (c : string) :
  rename_label column_names (rename_label column_names c) = rename_label column_names c.
Proof.
  unfold rename_label at 2 3. destruct (lookup column_names c) as [new|] eqn:E.
  - apply lookup_targets in E. unfold rename_label.
    assert (H : lookup column_names new = None).
    { simpl in E. decompose [or] E; subst; try reflexivity. contradiction. }
    now rewrite H.
  - unfold rename_label. now rewrite E.
Qed.

Lemma remove_nth_In {A : Type} (x : A) (l : list A) :
  forall k, In x (remove_nth k l) -> In x l.
Proof.
  induction l as [|a l IH]; intros k H; [destruct k; exact H|].
  destruct k as [|k]; cbn [remove_nth] in H; [now right|].
  destruct H as [E|H]; [now left | right; exact (IH _ H)].
Qed.

Lemma first_rename_no_Timestamp (c : string) :
  rename_label [("Timestamp", "DateTime")] c <> "Timestamp".
Proof.
  unfold rename_label, lookup.
  destruct (String.eqb_spec "Timestamp" c) as [E|N]; [discriminate | congruence].
Qed.

Lemma first_rename_other (c : string) :
  c <> "Timestamp" -> rename_label [("Timestamp", "DateTime")] c = c.
Proof.
  intros N. unfold rename_label, lookup.
  destruct (String.eqb_spec "Timestamp" c) as [E|_]; [congruence | reflexivity].
Qed.

(** X4.  The columns of a loaded table: the timestamp column has left them, so
    that no column is called [DateTime] or [Timestamp]; every other column
    of the file is there, under its internal name when it has one; and
    renaming the table by the static table again changes nothing. *)
Theorem load_data_columns (parse : cell -> option Z) (csv : DataFrame) (tf : TimeFrame) :
  load_data parse csv = Ok tf ->
  ~ In "DateTime" (tcolumns tf)
  /\ ~ In "Timestamp" (tcolumns tf)
  /\ List.length (columns csv) = S (List.length (tcolumns tf))
  /\ (forall name, In name (columns csv) -> name <> "Timestamp" -> name <> "DateTime" ->
                   In (rename_label column_names name) (tcolumns tf))
  /\ trename column_names tf = tf.
Proof.
  intros H. unfold load_data, datetime_column in H.
  destruct (positions "DateTime" _) as [|j [|j' js]] eqn:Ej; try discriminate.
  destruct (to_datetime parse _) as [stamps|e]; [|discriminate].
  simpl in H. injection H as <-.
  unfold positions in Ej. cbn [columns rename] in Ej.
  destruct (positions_from_single _ _ _ _ Ej) as (k & Hk & _ & Hnot & Hlen & Hkeep).
  simpl in Hk. subst k.
  set (cols' := map (rename_label [("Timestamp", "DateTime")]) (columns csv)) in *.
  assert (HnoT : ~ In "Timestamp" cols').
  { unfold cols'. rewrite in_map_iff. intros (c & Hc & _).
    exact (first_rename_no_Timestamp c Hc). }
  cbn [tcolumns trename set_index columns rename].
  fold cols'.
  split; [|split; [|split; [|split]]].
  - rewrite in_map_iff. intros (x & Hx & Hin).
    unfold rename_label in Hx. destruct (lookup column_names x) as [new|] eqn:E.
    + subst new. apply lookup_Timestamp in E. subst x.
      apply HnoT. exact (remove_nth_In _ _ _ Hin).
    + subst x. contradiction.
  - rewrite in_map_iff. intros (x & Hx & Hin).
    unfold rename_label in Hx. destruct (lookup column_names x) as [new|] eqn:E.
    + subst new. apply lookup_targets in E. simpl in E.
      decompose [or] E; try discriminate. contradiction.
    + subst x. apply HnoT. exact (remove_nth_In _ _ _ Hin).
  - rewrite length_map. unfold cols' in Hlen. rewrite length_map in Hlen. exact Hlen.
  - intros name Hin HT HD. apply in_map. apply Hkeep; [|exact HD].
    unfold cols'. rewrite <- (first_rename_other name HT). now apply in_map.
  - unfold trename. cbn [tcolumns trows]. f_equal.
    rewrite map_map. apply map_ext. intros c. apply rename_label_idempotent.
Qed.

Lemma load_data_columns_witness :
  exists tf, load_data iso_datetime no_temperature_csv = Ok tf
             /\ ~ In "DateTime" (tcolumns tf)
             /\ In "Vibration_Level" (tcolumns tf)
             /\ trename column_names tf = tf.
Proof.
  eexists. split; [vm_compute; reflexivity|].
  pose proof (load_data_columns iso_datetime no_temperature_csv _ eq_refl)
    as (H1 & _ & _ & H4 & H5).
  split; [exact H1|]. split; [|exact H5].
  apply (H4 "Vibration Level (mm/s)").
  - right. left. reflexivity.
  - discriminate.
  - discriminate.
Defined.

(** ** The sidebar and the recent rows *)

Lemma index_min_spec (ix : list Timestamp) :
  match index_min ix with
  | None => forall s, In s ix -> s = None
  | Some lo => In (Some lo) ix /\ forall t, In (Some t) ix -> lo <= t
  end.
Proof.
  induction ix as [|a ix IH]; cbn [index_min fold_right] in *; [intros s []|].
  fold (index_min ix) in *.
  destruct a as [x|], (index_min ix) as [m|]; cbn [stamp_min].
  - destruct IH as [Hin Hle]. split.
    + destruct (Z.min_spec x m) as [[_ ->]|[_ ->]]; [now left | now right].
    + intros t [E|Ht]; [injection E as <-; lia | specialize (Hle t Ht); lia].
  - split; [now left|]. intros t [E|Ht]; [injection E as <-; lia|].
    specialize (IH _ Ht). discriminate.
  - destruct IH as [Hin Hle]. split; [now right|].
    intros t [E|Ht]; [discriminate | now apply Hle].
  - intros s [<-|Hs]; [reflexivity | now apply IH].
Qed.

Lemma index_max_spec (ix : list Timestamp) :
  match index_max ix with
  | None => forall s, In s ix -> s = None
  | Some hi => In (Some hi) ix /\ forall t, In (Some t) ix -> t <= hi
  end.
Proof.
  induction ix as [|a ix IH]; cbn [index_max fold_right] in *; [intros s []|].
  fold (index_max ix) in *.
  destruct a as [x|], (index_max ix) as [m|]; cbn [stamp_max].
  - destruct IH as [Hin Hle]. split.
    + destruct (Z.max_spec x m) as [[_ ->]|[_ ->]]; [now right | now left].
    + intros t [E|Ht]; [injection E as <-; lia | specialize (Hle t Ht); lia].
  - split; [now left|]. intros t [E|Ht]; [injection E as <-; lia|].
    specialize (IH _ Ht). discriminate.
  - destruct IH as [Hin Hle]. split; [now right|].
    intros t [E|Ht]; [discriminate | now apply Hle].
  - intros s [<-|Hs]; [reflexivity | now apply IH].
Qed.

(** X5.  The date range of the sidebar.  On a table without any timestamp, the
    empty table among them, it raises; otherwise it shows the earliest and
    the latest timestamp of the index, the missing ones left aside. *)
Theorem date_range_spec (strftime : Z -> string) (tf : TimeFrame) :
  ((forall s, In s (index tf) -> s = None) ->
   date_range strftime tf = Raise (ValueError "NaTType does not support strftime"))
  /\ (forall t, In (Some t) (index tf) ->
        exists lo hi,
          date_range strftime tf = Ok (strftime lo ++ " to " ++ strftime hi)
          /\ In (Some lo) (index tf) /\ In (Some hi) (index tf)
          /\ forall t', In (Some t') (index tf) -> lo <= t' <= hi).
Proof.
  unfold date_range.
  pose proof (index_min_spec (index tf)) as Hmin.
  pose proof (index_max_spec (index tf)) as Hmax.
  split.
  - intros Hnone. destruct (index_min (index tf)) as [lo|]; [|reflexivity].
    destruct Hmin as [Hin _]. specialize (Hnone _ Hin). discriminate.
  - intros t Ht.
    destruct (index_min (index tf)) as [lo|]; [|specialize (Hmin _ Ht); discriminate].
    destruct (index_max (index tf)) as [hi|]; [|specialize (Hmax _ Ht); discriminate].
    destruct Hmin as [Hlo Hle]. destruct Hmax as [Hhi Hge].
    exists lo, hi. repeat split; try assumption; [now apply Hle | now apply Hge].
Qed.

Lemma date_range_spec_witness :
  date_range strftime_ymd (mkTimeFrame [] [(None, [])])
  = Raise (ValueError "NaTType does not support strftime")
  /\ exists lo hi,
       date_range strftime_ymd (mkTimeFrame [] [(Some 0, []); (None, [])])
       = Ok (strftime_ymd lo ++ " to " ++ strftime_ymd hi)
       /\ In (Some lo) [Some 0; None] /\ In (Some hi) [Some 0; None]
       /\ forall t', In (Some t') [Some 0; None] -> lo <= t' <= hi.
Proof.
  split.
  - apply (date_range_spec strftime_ymd (mkTimeFrame [] [(None, [])])).
    intros s [<-|[]]. reflexivity.
  - apply (date_range_spec strftime_ymd (mkTimeFrame [] [(Some 0, []); (None, [])]) ) with (t := 0).
    left. reflexivity.
Defined.

Lemma load_data_rows_sorted (parse : cell -> option Z) (csv : DataFrame) (tf : TimeFrame) :
  load_data parse csv = Ok tf ->
  StronglySorted (fun x y => row_leb x y = true) (trows tf).
Proof.
  intros H. apply load_data_Ok in H as (j & stamps & _ & Hrows).
  rewrite Hrows. apply sorted_map_snd, sort_values_sorted.
Qed.



Lemma tail_split {A : Type} (n : nat) (l : list A) :
  l = (firstn (List.length l - n) l ++ tail n l)%list
  /\ List.length (tail n l) = Nat.min n (List.length l).
Proof.
  unfold tail. split.
  - symmetry. apply firstn_skipn.
  - rewrite length_skipn. lia.
Qed.

Lemma sorted_app_le {A : Type} (R : A -> A -> Prop) (l1 l2 : list A) :
  StronglySorted R (l1 ++ l2) ->
  forall x y, In x l1 -> In y l2 -> R x y.
Proof.
  induction l1 as [|a l1 IH]; intros H x y Hx Hy; [destruct Hx|].
  simpl in H. inversion H as [|? ? Hs Ha]; subst.
  destruct Hx as [<-|Hx].
  - rewrite Forall_forall in Ha. apply Ha, in_or_app. now right.
  - now apply IH.
Qed.

(** X7.  The rows behind the sensor charts and the raw-data preview are the
    last 1000 rows of the loaded table, all of them when there are fewer;
    as the table is in order of time, no row left out is later than a row
    that is shown. *)
Theorem recent_rows_latest (parse : cell -> option Z) (csv : DataFrame) (tf : TimeFrame) :
  load_data parse csv = Ok tf ->
  exists older,
    trows tf = (older ++ recent_rows tf)%list
    /\ List.length (recent_rows tf) = Nat.min 1000 (List.length (trows tf))
    /\ (forall x y, In x older -> In y (recent_rows tf) ->
                    stamp_leb (fst x) (fst y) = true)
    /\ ((List.length (trows tf) <= 1000)%nat -> recent_rows tf = trows tf).
Proof.
  intros H. apply load_data_rows_sorted in H.
  unfold recent_rows.
  destruct (tail_split 1000 (trows tf)) as [Hsplit Hlen].
  exists (firstn (List.length (trows tf) - 1000) (trows tf)).
  split; [exact Hsplit|]. split; [exact Hlen|]. split.
  - rewrite Hsplit in H. intros x y Hx Hy.
    exact (sorted_app_le _ _ _ H x y Hx Hy).
  - intros Hle. unfold tail.
    replace (List.length (trows tf) - 1000)%nat with 0%nat by lia. reflexivity.
Qed.

Lemma recent_rows_latest_witness :
  exists tf older,
    load_data iso_datetime sample_csv = Ok tf
    /\ trows tf = (older ++ recent_rows tf)%list
    /\ List.length (recent_rows tf) = Nat.min 1000 (List.length (trows tf)).
Proof.
  assert (H : exists tf, load_data iso_datetime sample_csv = Ok tf)
    by (eexists; vm_compute; reflexivity).
  destruct H as (tf & Htf).
  destruct (recent_rows_latest iso_datetime sample_csv tf Htf) as (older & H1 & H2 & _).
  exists tf, older. repeat split; assumption.
Defined.

Lemma count_true_perm (bs bs' : list bool) :
  Permutation bs bs' -> count_true bs = count_true bs'.
Proof.
  induction 1 as [|b l l' _ IH|a b l|l l' l'' _ IH1 _ IH2].
  - reflexivity.
  - rewrite !count_true_cons. lia.
  - rewrite !count_true_cons. lia.
  - lia.
Qed.

(** ** The alerts: order of rows *)

Lemma Qlt_bool_compat (v v' x : Q) : (v == v')%Q -> Qlt_bool v x = Qlt_bool v' x.
Proof.
  intros E. destruct (Qlt_bool v x) eqn:E1, (Qlt_bool v' x) eqn:E2; try reflexivity.
  - apply Qlt_bool_iff in E1. apply not_true_iff_false in E2. elim E2.
    apply Qlt_bool_iff. lra.
  - apply Qlt_bool_iff in E2. apply not_true_iff_false in E1. elim E1.
    apply Qlt_bool_iff. lra.
Qed.

Lemma Qlt_bool_compat_r (v v' x : Q) : (v == v')%Q -> Qlt_bool x v = Qlt_bool x v'.
Proof.
  intros E. destruct (Qlt_bool x v) eqn:E1, (Qlt_bool x v') eqn:E2; try reflexivity.
  - apply Qlt_bool_iff in E1. apply not_true_iff_false in E2. elim E2.
    apply Qlt_bool_iff. lra.
  - apply Qlt_bool_iff in E2. apply not_true_iff_false in E1. elim E1.
    apply Qlt_bool_iff. lra.
Qed.

Lemma is_percentile_perm (xs xs' : list Q) (p v : Q) :
  Permutation xs xs' -> is_percentile xs p v -> is_percentile xs' p v.
Proof.
  intros Hp (s & Hs & Hsorted & Hv). exists s.
  split; [eapply perm_trans; eassumption|]. split; [exact Hsorted|].
  unfold len in *. now rewrite <- (Permutation_length Hp).
Qed.

(** The percentile does not depend on the order of the values. *)
Lemma quantile_perm (xs xs' : list Q) (p : Q) :
  (0 <= p)%Q -> (p <= 1)%Q ->
  Permutation xs xs' -> same_float (quantile xs p) (quantile xs' p).
Proof.
  intros H0 H1 Hp. destruct xs as [|x xs].
  - apply Permutation_nil in Hp. subst xs'. exact I.
  - assert (Hne : x :: xs <> []) by discriminate.
    assert (Hne' : xs' <> []).
    { intros E. subst xs'. apply Permutation_sym, Permutation_nil in Hp. discriminate. }
    destruct (quantile_is_percentile _ p Hne H0 H1) as (v & -> & Hv).
    destruct (quantile_is_percentile _ p Hne' H0 H1) as (v' & -> & Hv').
    simpl. eapply is_percentile_unique; [|exact Hv']. now apply (is_percentile_perm (x :: xs)).
Qed.

Lemma high_count_perm (xs xs' : list Q) : Permutation xs xs' -> high_count xs = high_count xs'.
Proof.
  intros Hp. destruct percentile_95 as [H0 H1].
  pose proof (quantile_perm xs xs' _ H0 H1 Hp) as Hq.
  unfold high_count.
  rewrite (count_true_perm _ _ (Permutation_map _ Hp)).
  f_equal. apply map_ext. intros x.
  destruct (quantile xs (95 # 100)) as [v|], (quantile xs' (95 # 100)) as [v'|];
    simpl in Hq; try contradiction; [|reflexivity].
  simpl. now apply Qlt_bool_compat.
Qed.

Lemma low_count_perm (xs xs' : list Q) : Permutation xs xs' -> low_count xs = low_count xs'.
Proof.
  intros Hp. destruct percentile_5 as [H0 H1].
  pose proof (quantile_perm xs xs' _ H0 H1 Hp) as Hq.
  unfold low_count.
  rewrite (count_true_perm _ _ (Permutation_map _ Hp)).
  f_equal. apply map_ext. intros x.
  destruct (quantile xs (5 # 100)) as [v|], (quantile xs' (5 # 100)) as [v'|];
    simpl in Hq; try contradiction; [|reflexivity].
  simpl. now apply Qlt_bool_compat_r.
Qed.

(** X12.  The alerts do not depend on the order of the rows: two tables with the
    same rows have the same thresholds, the same three counts and the same
    report. *)
Theorem alert_conditions_order_free (df df' : SensorTable) :
  Permutation df df' ->
  alert_conditions df = alert_conditions df'
  /\ report (alert_conditions df) = report (alert_conditions df')
  /\ same_float (quantile (map Vibration_Level df) (95 # 100))
                (quantile (map Vibration_Level df') (95 # 100))
  /\ same_float (quantile (map Production_Quality_Score df) (5 # 100))
                (quantile (map Production_Quality_Score df') (5 # 100))
  /\ same_float (quantile (map Energy_Consumption df) (95 # 100))
                (quantile (map Energy_Consumption df') (95 # 100)).
Proof.
  intros Hp.
  assert (E : alert_conditions df = alert_conditions df').
  { unfold alert_conditions.
    rewrite (high_count_perm _ _ (Permutation_map Vibration_Level Hp)).
    rewrite (low_count_perm _ _ (Permutation_map Production_Quality_Score Hp)).
    rewrite (high_count_perm _ _ (Permutation_map Energy_Consumption Hp)).
    reflexivity. }
  destruct percentile_95 as [H0 H1]. destruct percentile_5 as [H2 H3].
  split; [exact E|]. split; [now rewrite E|].
  repeat split; apply quantile_perm; try assumption; now apply Permutation_map.
Qed.

Lemma alert_conditions_order_free_witness :
  alert_conditions outlier_table = alert_conditions (rev outlier_table).
Proof.
  destruct (alert_conditions_order_free outlier_table (rev outlier_table)) as [H _];
    [apply Permutation_rev | exact H].
Defined.

(** ** The hourly trends: the edges *)

Lemma bucket_no_data_iff (df : SensorTable) (start : Z) :
  no_data (bucket df start) <-> forall x, In x df -> ~ in_window start x.
Proof.
  assert (Hempty : filter (in_bucket start) df = []
                   <-> forall x, In x df -> ~ in_window start x).
  { rewrite filter_nil_iff. split; intros H x Hx; specialize (H x Hx).
    - rewrite <- in_bucket_iff. congruence.
    - apply not_true_iff_false. now rewrite in_bucket_iff. }
  rewrite <- Hempty. unfold no_data, bucket. simpl. rewrite !mean_nan_iff. split.
  - intros (H & _). now apply map_eq_nil in H.
  - intros ->. repeat split.
Qed.

Lemma floor_window (t : Z) : t / hour * hour <= t < t / hour * hour + hour.
Proof.
  pose proof hour_pos as Hh. pose proof (Z.div_mod t hour).
  pose proof (Z.mod_pos_bound t hour Hh). lia.
Qed.

Lemma resample_starts (df : SensorTable) (b : HourlyAggregate) :
  In b (resample_1h_mean df) -> exists k, bucket_start b = k * hour.
Proof.
  destruct df as [|r rest]; [intros []|].
  unfold resample_1h_mean. rewrite in_map_iff. intros (k & <- & _).
  eexists. reflexivity.
Qed.

(** X13.  The first and the last bucket of the hourly trends always hold a
    reading, the earliest and the latest one: a gap can only be between
    them.  And the windows do not overlap: a reading counts in one bucket
    only. *)
Theorem hourly_edges_have_data (r : SensorReading) (rest : SensorTable) :
  (exists first last,
     nth_error (resample_1h_mean (r :: rest)) 0 = Some first
     /\ nth_error (resample_1h_mean (r :: rest))
                  (List.length (resample_1h_mean (r :: rest)) - 1) = Some last
     /\ bucket_start first = min_ts r rest / hour * hour
     /\ bucket_start last = max_ts r rest / hour * hour
     /\ ~ no_data first /\ ~ no_data last)
  /\ (forall x b b', In x (r :: rest) ->
                     In b (resample_1h_mean (r :: rest)) ->
                     In b' (resample_1h_mean (r :: rest)) ->
                     in_window (bucket_start b) x -> in_window (bucket_start b') x ->
                     b = b').
Proof.
  split.
  - pose proof (resample_length r rest) as Hlen.
    pose proof (Z.div_le_mono _ _ hour hour_pos (min_le_max_ts r rest)) as Hdiv.
    set (n := List.length (resample_1h_mean (r :: rest))) in *.
    assert (Hn : (0 < n)%nat) by (unfold len in Hlen; lia).
    destruct (nth_error (resample_1h_mean (r :: rest)) 0) as [first|] eqn:E0;
      [|apply nth_error_None in E0; fold n in E0; lia].
    destruct (nth_error (resample_1h_mean (r :: rest)) (n - 1)) as [last|] eqn:E1;
      [|apply nth_error_None in E1; fold n in E1; lia].
    exists first, last.
    apply resample_nth in E0. apply resample_nth in E1.
    assert (S0 : bucket_start first = min_ts r rest / hour * hour).
    { subst first. cbn [bucket bucket_start]. f_equal. lia. }
    assert (S1 : bucket_start last = max_ts r rest / hour * hour).
    { subst last. cbn [bucket bucket_start]. f_equal. unfold len in Hlen. lia. }
    repeat split; try assumption.
    + destruct (min_ts_spec r rest) as [_ (x & Hx & Ex)].
      rewrite E0, bucket_no_data_iff. intros H. apply (H x Hx).
      unfold in_window. rewrite Ex.
      replace (min_ts r rest / hour + Z.of_nat 0) with (min_ts r rest / hour) by lia.
      apply floor_window.
    + destruct (max_ts_spec r rest) as [_ (x & Hx & Ex)].
      rewrite E1, bucket_no_data_iff. intros H. apply (H x Hx).
      unfold in_window. rewrite Ex.
      replace (min_ts r rest / hour + Z.of_nat (n - 1)) with (max_ts r rest / hour)
        by (unfold len in Hlen; lia).
      apply floor_window.
  - intros x b b' _ Hb Hb' Hw Hw'.
    destruct (resample_starts _ _ Hb) as (k & Hk).
    destruct (resample_starts _ _ Hb') as (k' & Hk').
    apply resample_In in Hb. apply resample_In in Hb'.
    rewrite Hb, Hb'. f_equal.
    unfold in_window in Hw, Hw'. rewrite Hk, Hk' in *.
    pose proof hour_pos. assert (k = k') by nia. now subst.
Qed.
